(** * InternalApiGateway: the construct of [src/internal-apigateway.ts]

    The source file declares one interface, [InternalApiGatewayProps], and one
    abstract class, [InternalApiGateway], whose constructor
    - calls [super(scope, id)],
    - builds an IAM policy document of two statements,
    - creates a private [RestApi] under [this] and stores it in the protected
      field [apiGateway],
    - creates one [BasePathMapping] under [this] for every entry of
      [props.domains].

    The embedding follows the constructor statement by statement.  The objects
    handed to the CDK library ([PolicyStatement], [RestApi], ...) are records
    holding the properties the constructor passes.  Reads that JavaScript may
    reject (a member access on [undefined], iterating [undefined]) throw a
    [TypeError].

    Every [new X(scope, id, props)] goes through the [Construct] constructor
    of the library, which rewrites each slash of [id] to two dashes, throws
    on an empty name and on a name already registered under the scope, and
    otherwise registers the new construct under the scope; only then does
    the constructor of [X] look at [props], and it may throw.  The first
    part is modelled as the library does it.  Which properties the library
    turns down is a parameter, [accepts], of the model; [cdk_accepts] is the
    check used in the sample runs. *)

From Stdlib Require Import ZArith Ascii.
From stdpp Require Import gmap strings list fin_maps.

Local Open Scope string_scope.

(** ** aws-ec2 *)

Module ec2.

(** [IInterfaceVpcEndpoint]: the constructor reads [vpcEndpointId] only. *)
Record IInterfaceVpcEndpoint := {
  vpcEndpointId : string
}.

End ec2.

(** ** aws-iam *)

Module iam.

Inductive Effect := ALLOW | DENY.

Inductive IPrincipal :=
| AnyPrincipal
| AccountPrincipal (accountId : string)
| ArnPrincipal (arn : string)
| ServicePrincipal (service : string).

(** The property object given to [new iam.PolicyStatement].  [conditions] is
    a JavaScript object from operator names to objects from condition keys
    to values. *)
Record PolicyStatement := {
  effect : Effect;
  principals : list IPrincipal;
  actions : list string;
  resources : list string;
  conditions : gmap string (gmap string string)
}.

Record PolicyDocument := {
  statements : list PolicyStatement
}.

(** *** Meaning of the two condition operators the construct uses

    A request carries condition keys with values.  [StringEquals] holds when
    the request has the key with exactly the given value;
    [StringNotEquals] is its negated form and also holds when the request
    does not carry the key.  Any other operator name is outside this
    development and is read as not satisfied. *)
Definition operator_holds (operator : string) (actual : option string)
    (expected : string) : bool :=
  if decide (operator = "StringEquals")
  then bool_decide (actual = Some expected)
  else if decide (operator = "StringNotEquals")
  then negb (bool_decide (actual = Some expected))
  else false.

Definition block_holds (request : gmap string string) (operator : string)
    (block : gmap string string) : bool :=
  forallb (fun kv => operator_holds operator (request !! kv.1) kv.2)
          (map_to_list block).

Definition conditions_hold (request : gmap string string)
    (c : gmap string (gmap string string)) : bool :=
  forallb (fun ob => block_holds request ob.1 ob.2) (map_to_list c).

End iam.

(** ** aws-apigateway *)

Module apigateway.

(** [IDomainName].  [toString] is what JavaScript's string conversion of
    the object yields; the template literal of the mapping identifier
    performs that conversion.  A construct of the library converts to its
    path in the construct tree, an object without a conversion of its own to
    the text [[object Object]]. *)
Record IDomainName := {
  domainName : string;
  domainNameAliasDomainName : string;
  domainNameAliasHostedZoneId : string;
  toString : string
}.

Inductive EndpointType := EDGE | REGIONAL | PRIVATE.

(** [vpcEndpoints] is an array of JavaScript values: an element read from
    a property of another object may be [undefined]. *)
Record EndpointConfiguration := {
  types : list EndpointType;
  vpcEndpoints : option (list (option ec2.IInterfaceVpcEndpoint))
}.

Record StageOptions := {
  stageName : option string
}.

(** The property object given to [new apigateway.RestApi].  A property the
    object literal sets to [undefined] is [None]. *)
Record RestApiProps := {
  description : option string;
  endpointConfiguration : option EndpointConfiguration;
  policy : option iam.PolicyDocument;
  deployOptions : option StageOptions;
  binaryMediaTypes : option (list string);
  minimumCompressionSize : option Z
}.

(** A reference to a construct created under [this]: its position among
    the children of [this], in creation order. *)
Definition Ref := nat.

(** The [Stage] object held by the [deploymentStage] property of a
    [RestApi]; the library creates it together with the gateway, so it is
    named by the gateway that owns it. *)
Inductive StageRef := deploymentStage (api : Ref).

(** The property object given to [new apigateway.BasePathMapping]. *)
Record BasePathMappingProps := {
  mappingDomainName : IDomainName;
  restApi : option Ref;
  stage : option StageRef;
  basePath : option string
}.

Inductive Resource :=
| RestApi (props : RestApiProps)
| BasePathMapping (props : BasePathMappingProps).

End apigateway.

(** ** The configuration record *)

(** [InternalApiGatewayProps] as the constructor sees it at run time:
    TypeScript's types are erased, so every property read may yield
    [undefined] ([None]).  [minimumCompressionSize] is a JavaScript number;
    the constructor does no arithmetic on it and it is kept as an integer. *)
Record InternalApiGatewayProps := {
  stage : option string;
  domains : option (list apigateway.IDomainName);
  vpcEndpoint : option ec2.IInterfaceVpcEndpoint;
  apiBasePathMappingPath : option string;
  binaryMediaTypes : option (list string);
  minimumCompressionSize : option Z
}.

(** The interface marks [stage], [domains] and [vpcEndpoint] as required. *)
Definition well_typed (props : InternalApiGatewayProps) : bool :=
  bool_decide (is_Some (stage props)) &&
  bool_decide (is_Some (domains props)) &&
  bool_decide (is_Some (vpcEndpoint props)).

(** ** The constructs library: names *)

(** Every slash of an identifier becomes two dashes. *)
Fixpoint sanitizeId (id : string) : string :=
  match id with
  | EmptyString => EmptyString
  | String c rest =>
      if Ascii.eqb c "/"%char
      then String "-"%char (String "-"%char (sanitizeId rest))
      else String c (sanitizeId rest)
  end.

(** ** The construct under construction *)

(** The part of [this] the constructor touches: the name [this] is
    registered under, the children registered under [this] with their names
    (in creation order), and the protected field [apiGateway], [None] while
    unassigned.  [apiGateway_writes] is a ghost counter of the assignments
    to that field. *)
Record This := {
  node_id : string;
  children : list (string * apigateway.Resource);
  apiGateway : option apigateway.Ref;
  apiGateway_writes : nat
}.

(** [this] before [super] has run. *)
Definition blank : This :=
  {| node_id := ""; children := []; apiGateway := None;
     apiGateway_writes := 0 |}.

(** [this] when [super] has returned. *)
Definition named (id : string) : This :=
  {| node_id := sanitizeId id; children := []; apiGateway := None;
     apiGateway_writes := 0 |}.

(** The names of the children of [this], in creation order. *)
Definition child_ids (this : This) : list string :=
  fst <$> children this.

(** [this] with further children registered. *)
Definition grow (this : This)
    (more : list (string * apigateway.Resource)) : This :=
  {| node_id := node_id this;
     children := children this ++ more;
     apiGateway := apiGateway this;
     apiGateway_writes := apiGateway_writes this |}.

(** ** Completions and the construction monad *)

(** What can be thrown: a [TypeError] of the JavaScript engine (its message
    is not modelled), or an [Error] of the library, which is told apart by
    its cause here. *)
Inductive Error :=
| TypeError
| EmptyId
| NameTaken (name : string)
| Rejected (r : apigateway.Resource).

Inductive Completion (A : Type) :=
| Normal (value : A)
| Throw (e : Error).
Arguments Normal {A} value.
Arguments Throw {A} e.

(** A statement runs on [this]; what it did before throwing stays done. *)
Definition M (A : Type) : Type := This -> Completion A * This.

Definition ret {A} (a : A) : M A := fun this => (Normal a, this).

Definition bind {A B} (m : M A) (k : A -> M B) : M B :=
  fun this =>
    match m this with
    | (Normal a, this') => k a this'
    | (Throw e, this') => (Throw e, this')
    end.

Definition throw {A} (e : Error) : M A := fun this => (Throw e, this).

Notation "'let!' x ':=' m 'in' k" := (bind m (fun x => k))
  (at level 10, x name, m at level 100, k at level 200).
Notation "m ';;;' k" := (bind m (fun _ => k))
  (at level 100, k at level 200, right associativity).

(** ** The constructs library: registration *)

(** The name a new construct gets under a scope whose children are named
    [taken]: the rewritten identifier, unless that is empty or taken. *)
Definition node_name (taken : list string) (id : string)
    : Completion string :=
  if bool_decide (sanitizeId id = "") then Throw EmptyId
  else if bool_decide (sanitizeId id ∈ taken)
       then Throw (NameTaken (sanitizeId id))
       else Normal (sanitizeId id).

(** [super(scope, id)], where the children of [scope] are named [scope]. *)
Definition super (scope : list string) (id : string) : M unit :=
  fun this =>
    match node_name scope id with
    | Normal name =>
        (Normal tt,
         {| node_id := name;
            children := children this;
            apiGateway := apiGateway this;
            apiGateway_writes := apiGateway_writes this |})
    | Throw e => (Throw e, this)
    end.

(** [new X(this, id, props)]: the [Construct] constructor registers the new
    child under [this] or throws; then the constructor of [X] accepts the
    properties and the reference to the child is returned, or it throws
    with the child registered. *)
Definition new_child (accepts : apigateway.Resource -> bool)
    (id : string) (r : apigateway.Resource) : M apigateway.Ref :=
  fun this =>
    match node_name (child_ids this) id with
    | Normal name =>
        if accepts r
        then (Normal (length (children this)), grow this [(name, r)])
        else (Throw (Rejected r), grow this [(name, r)])
    | Throw e => (Throw e, this)
    end.

(** ** JavaScript primitives used by the constructor *)

(** Truthiness of a value that is a string or [undefined]. *)
Definition truthy (v : option string) : bool :=
  match v with
  | Some s => negb (bool_decide (s = ""))
  | None => false
  end.

(** [props.vpcEndpoint.vpcEndpointId]. *)
Definition read_vpcEndpointId (props : InternalApiGatewayProps) : M string :=
  match vpcEndpoint props with
  | Some endpoint => ret (ec2.vpcEndpointId endpoint)
  | None => throw TypeError
  end.

(** [for (const x of xs) body]: iterating [undefined] throws. *)
Fixpoint for_each {A} (xs : list A) (body : A -> M unit) : M unit :=
  match xs with
  | [] => ret tt
  | x :: rest => body x;;; for_each rest body
  end.

Definition for_of {A} (xs : option (list A)) (body : A -> M unit) : M unit :=
  match xs with
  | Some l => for_each l body
  | None => throw TypeError
  end.

(** [this.apiGateway = api]. *)
Definition assign_apiGateway (api : apigateway.Ref) : M unit :=
  fun this =>
    (Normal tt,
     {| node_id := node_id this;
        children := children this;
        apiGateway := Some api;
        apiGateway_writes := S (apiGateway_writes this) |}).

(** [this.apiGateway]. *)
Definition read_apiGateway : M (option apigateway.Ref) :=
  fun this => (Normal (apiGateway this), this).

(** [this.apiGateway.deploymentStage]. *)
Definition read_deploymentStage : M apigateway.StageRef :=
  fun this =>
    match apiGateway this with
    | Some api => (Normal (apigateway.deploymentStage api), this)
    | None => (Throw TypeError, this)
    end.

(** ** The constructor *)

(** Lines 52-77: the resource policy.  [policyDocument] is the object
    literal, [apiResourcePolicy] evaluates its two property reads in order. *)
Definition policyDocument (denied allowed : string) : iam.PolicyDocument :=
  {| iam.statements := [
       {| iam.effect := iam.DENY;
          iam.principals := [iam.AnyPrincipal];
          iam.actions := ["execute-api:Invoke"];
          iam.resources := ["execute-api:/*/*/*"];
          iam.conditions :=
            {[ "StringNotEquals" := {[ "aws:sourceVpce" := denied ]} ]} |};
       {| iam.effect := iam.ALLOW;
          iam.principals := [iam.AnyPrincipal];
          iam.actions := ["execute-api:Invoke"];
          iam.resources := ["execute-api:/*/*/*"];
          iam.conditions :=
            {[ "StringEquals" := {[ "aws:sourceVpce" := allowed ]} ]} |}
     ] |}.

Definition apiResourcePolicy (props : InternalApiGatewayProps)
    : M iam.PolicyDocument :=
  let! denied := read_vpcEndpointId props in
  let! allowed := read_vpcEndpointId props in
  ret (policyDocument denied allowed).

(** Lines 79-91: the property object of the gateway. *)
Definition gatewayProps (props : InternalApiGatewayProps)
    (apiResourcePolicy : iam.PolicyDocument) : apigateway.RestApiProps :=
  {| apigateway.description :=
       Some "This service serves an internal api gateway";
     apigateway.endpointConfiguration :=
       Some {| apigateway.types := [apigateway.PRIVATE];
               apigateway.vpcEndpoints := Some [vpcEndpoint props] |};
     apigateway.policy := Some apiResourcePolicy;
     apigateway.deployOptions :=
       Some {| apigateway.stageName := stage props |};
     apigateway.binaryMediaTypes := binaryMediaTypes props;
     apigateway.minimumCompressionSize := minimumCompressionSize props |}.

(** Lines 94-101: the identifier and the property object of one mapping. *)
Definition mappingId (domainItem : apigateway.IDomainName) : string :=
  "-" +:+ apigateway.toString domainItem.

(** [props.apiBasePathMappingPath ? props.apiBasePathMappingPath : ""]. *)
Definition selectBasePath (props : InternalApiGatewayProps) : option string :=
  if truthy (apiBasePathMappingPath props)
  then apiBasePathMappingPath props
  else Some "".

Definition mappingProps (props : InternalApiGatewayProps)
    (domainItem : apigateway.IDomainName) (api : option apigateway.Ref)
    (deployed : apigateway.StageRef) : apigateway.BasePathMappingProps :=
  {| apigateway.mappingDomainName := domainItem;
     apigateway.restApi := api;
     apigateway.stage := Some deployed;
     apigateway.basePath := selectBasePath props |}.

Definition createMapping (accepts : apigateway.Resource -> bool)
    (props : InternalApiGatewayProps)
    (domainItem : apigateway.IDomainName) : M unit :=
  let! api := read_apiGateway in
  let! deployed := read_deploymentStage in
  new_child accepts (mappingId domainItem)
    (apigateway.BasePathMapping
       (mappingProps props domainItem api deployed));;;
  ret tt.

(** Lines 50-102: the body of the constructor. *)
Definition constructor_body (accepts : apigateway.Resource -> bool)
    (scope : list string) (id : string) (props : InternalApiGatewayProps)
    : M unit :=
  super scope id;;;
  let! policy := apiResourcePolicy props in
  let! api := new_child accepts ("Gateway-" +:+ id)
                (apigateway.RestApi (gatewayProps props policy)) in
  assign_apiGateway api;;;
  for_of (domains props) (createMapping accepts props).

(** [new InternalApiGateway(scope, id, props)], through a subclass, with a
    library that accepts what [accepts] says and a scope whose children are
    named [scope]: how the constructor completes, and [this] as it leaves
    it. *)
Definition constructor (accepts : apigateway.Resource -> bool)
    (scope : list string) (id : string) (props : InternalApiGatewayProps)
    : Completion unit * This :=
  constructor_body accepts scope id props blank.

(** ** Observations on the constructed object *)

Definition as_gateway (child : string * apigateway.Resource)
    : option (string * apigateway.RestApiProps) :=
  match child.2 with
  | apigateway.RestApi p => Some (child.1, p)
  | apigateway.BasePathMapping _ => None
  end.

Definition as_mapping (child : string * apigateway.Resource)
    : option (string * apigateway.BasePathMappingProps) :=
  match child.2 with
  | apigateway.BasePathMapping p => Some (child.1, p)
  | apigateway.RestApi _ => None
  end.

(** The gateways, and the base-path mappings, registered under [this]. *)
Definition gateways (this : This)
    : list (string * apigateway.RestApiProps) :=
  omap as_gateway (children this).

Definition mappings (this : This)
    : list (string * apigateway.BasePathMappingProps) :=
  omap as_mapping (children this).

(** The gateway the protected handle designates. *)
Definition handle (this : This) : option apigateway.RestApiProps :=
  api ← apiGateway this;
  child ← children this !! api;
  snd <$> as_gateway child.


(** The name a mapping is registered under. *)
Definition registeredId (domainItem : apigateway.IDomainName) : string :=
  sanitizeId (mappingId domainItem).

(** The child a mapping statement registers for [domainItem] once the
    handle designates [api]. *)
Definition mappingChild (props : InternalApiGatewayProps)
    (api : apigateway.Ref) (domainItem : apigateway.IDomainName)
    : string * apigateway.Resource :=
  (registeredId domainItem,
   apigateway.BasePathMapping
     (mappingProps props domainItem (Some api)
        (apigateway.deploymentStage api))).

(** [props] with its optional base path replaced. *)
Definition with_basePath (path : option string)
    (props : InternalApiGatewayProps) : InternalApiGatewayProps :=
  {| stage := stage props;
     domains := domains props;
     vpcEndpoint := vpcEndpoint props;
     apiBasePathMappingPath := path;
     binaryMediaTypes := binaryMediaTypes props;
     minimumCompressionSize := minimumCompressionSize props |}.

(** [props] with its domain list replaced. *)
Definition with_domains (ds : option (list apigateway.IDomainName))
    (props : InternalApiGatewayProps) : InternalApiGatewayProps :=
  {| stage := stage props;
     domains := ds;
     vpcEndpoint := vpcEndpoint props;
     apiBasePathMappingPath := apiBasePathMappingPath props;
     binaryMediaTypes := binaryMediaTypes props;
     minimumCompressionSize := minimumCompressionSize props |}.

(** The child the gateway statement registers, and [this] once the handle
    is assigned to it. *)
Definition gatewayChild (id : string) (props : InternalApiGatewayProps)
    (endpoint : ec2.IInterfaceVpcEndpoint)
    : string * apigateway.Resource :=
  (sanitizeId ("Gateway-" +:+ id),
   apigateway.RestApi
     (gatewayProps props
        (policyDocument (ec2.vpcEndpointId endpoint)
                        (ec2.vpcEndpointId endpoint)))).

Definition with_gateway (id : string) (props : InternalApiGatewayProps)
    (endpoint : ec2.IInterfaceVpcEndpoint) : This :=
  {| node_id := sanitizeId id;
     children := [gatewayChild id props endpoint];
     apiGateway := Some 0;
     apiGateway_writes := 1 |}.

(** The policies bound to the gateways of [this]. *)
Definition gateway_policies (this : This)
    : list (option iam.PolicyDocument) :=
  (fun g => apigateway.policy g.2) <$> gateways this.

(** ** When the library lets the constructor through *)

(** [super] returns: the name of [this] is not empty and free in the
    scope. *)
Definition scope_admits (scope : list string) (id : string) : bool :=
  negb (bool_decide (sanitizeId id = "")) &&
  negb (bool_decide (sanitizeId id ∈ scope)).

(** The library accepts the gateway the constructor asks for. *)
Definition gateway_admitted (accepts : apigateway.Resource -> bool)
    (id : string) (props : InternalApiGatewayProps) : bool :=
  match vpcEndpoint props with
  | Some endpoint => accepts (gatewayChild id props endpoint).2
  | None => false
  end.

(** The mappings of [ds] get pairwise different names and the library
    accepts each of them. *)
Definition mappings_admitted (accepts : apigateway.Resource -> bool)
    (props : InternalApiGatewayProps)
    (ds : list apigateway.IDomainName) : bool :=
  bool_decide (NoDup (registeredId <$> ds)) &&
  forallb (fun d => accepts (mappingChild props 0 d).2) ds.

Definition library_admits (accepts : apigateway.Resource -> bool)
    (scope : list string) (id : string) (props : InternalApiGatewayProps)
    : bool :=
  scope_admits scope id &&
  gateway_admitted accepts id props &&
  match domains props with
  | Some ds => mappings_admitted accepts props ds
  | None => false
  end.

(** An error thrown by the library, not by a statement of the
    constructor. *)
Definition library_error (e : Error) : bool :=
  match e with
  | TypeError => false
  | EmptyId | NameTaken _ | Rejected _ => true
  end.

(** ** The checks of the library in the sample runs *)

(** What [BasePathMapping] asks of a base path that is not empty: no slash
    at either end, no two slashes in a row, and only characters of its
    pattern, whose range from the closing parenthesis to the slash takes
    in the comma. *)
Definition base_path_chars : list ascii :=
  String.list_ascii_of_string
    "abcdefghijklmnopqrstuvwxyzABCDEFGHIJKLMNOPQRSTUVWXYZ0123456789$_.+!*'(),-/".

Definition starts_with_slash (s : string) : bool :=
  match s with
  | String c _ => Ascii.eqb c "/"%char
  | EmptyString => false
  end.

Fixpoint ends_with_slash (s : string) : bool :=
  match s with
  | EmptyString => false
  | String c EmptyString => Ascii.eqb c "/"%char
  | String _ rest => ends_with_slash rest
  end.

Fixpoint has_double_slash (s : string) : bool :=
  match s with
  | String a (String b _ as rest) =>
      (Ascii.eqb a "/"%char && Ascii.eqb b "/"%char) || has_double_slash rest
  | _ => false
  end.

Definition valid_basePath (path : string) : bool :=
  negb (starts_with_slash path) && negb (ends_with_slash path) &&
  negb (has_double_slash path) &&
  forallb (fun c => bool_decide (c ∈ base_path_chars))
          (String.list_ascii_of_string path).

(** [RestApi] takes what the constructor passes; [BasePathMapping] checks a
    base path that is a non-empty string. *)
Definition cdk_accepts (r : apigateway.Resource) : bool :=
  match r with
  | apigateway.RestApi _ => true
  | apigateway.BasePathMapping p =>
      match apigateway.basePath p with
      | Some path => if truthy (Some path) then valid_basePath path else true
      | None => true
      end
  end.

(** ** What the claims say about the constructed object *)

(** The document has two statements, a deny and an allow, for any principal
    on [execute-api:Invoke] over one resource pattern, gated on [vpce] by
    [StringNotEquals] and [StringEquals], and for every request exactly one
    of the two conditions is satisfied. *)
Definition endpoint_gate (vpce : string) (doc : iam.PolicyDocument) : Prop :=
  exists deny allow,
    iam.statements doc = [deny; allow] /\
    iam.effect deny = iam.DENY /\ iam.effect allow = iam.ALLOW /\
    iam.principals deny = [iam.AnyPrincipal] /\
    iam.principals allow = [iam.AnyPrincipal] /\
    iam.actions deny = ["execute-api:Invoke"] /\
    iam.actions allow = ["execute-api:Invoke"] /\
    iam.resources deny = ["execute-api:/*/*/*"] /\
    iam.resources allow = iam.resources deny /\
    iam.conditions deny =
      {[ "StringNotEquals" := {[ "aws:sourceVpce" := vpce ]} ]} /\
    iam.conditions allow =
      {[ "StringEquals" := {[ "aws:sourceVpce" := vpce ]} ]} /\
    forall request : gmap string string,
      iam.conditions_hold request (iam.conditions deny) =
      negb (iam.conditions_hold request (iam.conditions allow)).

(** [this] holds exactly one gateway. *)
Definition sole_gateway (this : This) (gateway : apigateway.RestApiProps)
    : Prop :=
  exists name, gateways this = [(name, gateway)].

(** [this] holds one mapping per entry of [ds], in the order of [ds], and
    every mapping refers to the deployment stage of one gateway of [this]. *)
Definition maps_each_domain (this : This)
    (ds : list apigateway.IDomainName) : Prop :=
  length (mappings this) = length ds /\
  (fun m => apigateway.mappingDomainName m.2) <$> mappings this = ds /\
  exists api name gateway,
    children this !! api = Some (name, apigateway.RestApi gateway) /\
    Forall (fun m => apigateway.stage m.2 =
                       Some (apigateway.deploymentStage api))
           (mappings this).

(** Every mapping of [this] refers to the deployment stage of a gateway
    registered under [this]. *)
Definition on_gateway_stage (this : This) : Prop :=
  Forall (fun m => exists api name gateway,
            children this !! api = Some (name, apigateway.RestApi gateway) /\
            apigateway.stage m.2 = Some (apigateway.deploymentStage api))
         (mappings this).

(** Every mapping of [this] carries the base path [path]. *)
Definition carry_basePath (this : This) (path : string) : Prop :=
  Forall (fun m => apigateway.basePath m.2 = Some path) (mappings this).

(** The [n] mappings of [this] all carry the base path [path]. *)
Definition shared_basePath (this : This) (n : nat) (path : string) : Prop :=
  (fun m => apigateway.basePath m.2) <$> mappings this =
  replicate n (Some path).

(** Every mapping of [this] takes its REST API from the handle and its stage
    from the deployment stage of the gateway the handle designates. *)
Definition mappings_on_handle (this : This) : Prop :=
  Forall (fun m => exists api,
            apiGateway this = Some api /\
            apigateway.restApi m.2 = Some api /\
            apigateway.stage m.2 = Some (apigateway.deploymentStage api))
         (mappings this).

(** The handle of [this] designates a gateway of [this], and every mapping
    of [this] takes both its REST API and its stage from that handle. *)
Definition mappings_use_handle (this : This) : Prop :=
  exists api gateway,
    apiGateway this = Some api /\
    handle this = Some gateway /\
    sole_gateway this gateway /\
    Forall (fun m => apigateway.restApi m.2 = Some api /\
                     apigateway.stage m.2 =
                       Some (apigateway.deploymentStage api))
           (mappings this).

(** ** Sample configurations *)

Definition domain_one : apigateway.IDomainName :=
  {| apigateway.domainName := "one.example.org";
     apigateway.domainNameAliasDomainName := "d-one.execute-api.example";
     apigateway.domainNameAliasHostedZoneId := "Z1";
     apigateway.toString := "Stack/DomainOne" |}.

Definition domain_two : apigateway.IDomainName :=
  {| apigateway.domainName := "two.example.org";
     apigateway.domainNameAliasDomainName := "d-two.execute-api.example";
     apigateway.domainNameAliasHostedZoneId := "Z2";
     apigateway.toString := "Stack/DomainTwo" |}.

Definition endpoint_one : ec2.IInterfaceVpcEndpoint :=
  {| ec2.vpcEndpointId := "vpce-1" |}.

(** The scenario of the specification: stage [prod], two domains. *)
Definition prod_props : InternalApiGatewayProps :=
  {| stage := Some "prod";
     domains := Some [domain_one; domain_two];
     vpcEndpoint := Some endpoint_one;
     apiBasePathMappingPath := None;
     binaryMediaTypes := None;
     minimumCompressionSize := None |}.

(** The same with a base path, binary media types and a threshold. *)
Definition binary_props : InternalApiGatewayProps :=
  {| stage := Some "prod";
     domains := Some [domain_one; domain_two];
     vpcEndpoint := Some endpoint_one;
     apiBasePathMappingPath := Some "v1";
     binaryMediaTypes := Some ["application/octet-stream"];
     minimumCompressionSize := Some 1024%Z |}.

(** Two different domain objects that do not define their own string
    conversion: JavaScript converts both to the same text. *)
Definition plain_domain_a : apigateway.IDomainName :=
  {| apigateway.domainName := "a.example.org";
     apigateway.domainNameAliasDomainName := "d-a.execute-api.example";
     apigateway.domainNameAliasHostedZoneId := "Z1";
     apigateway.toString := "[object Object]" |}.

Definition plain_domain_b : apigateway.IDomainName :=
  {| apigateway.domainName := "b.example.org";
     apigateway.domainNameAliasDomainName := "d-b.execute-api.example";
     apigateway.domainNameAliasHostedZoneId := "Z2";
     apigateway.toString := "[object Object]" |}.

Definition plain_props : InternalApiGatewayProps :=
  {| stage := Some "prod";
     domains := Some [plain_domain_a; plain_domain_b];
     vpcEndpoint := Some endpoint_one;
     apiBasePathMappingPath := None;
     binaryMediaTypes := None;
     minimumCompressionSize := None |}.

(** A caller outside the type checker that leaves out the endpoint, and one
    that leaves out the stage name. *)
Definition no_endpoint_props : InternalApiGatewayProps :=
  {| stage := Some "prod";
     domains := Some [domain_one];
     vpcEndpoint := None;
     apiBasePathMappingPath := None;
     binaryMediaTypes := None;
     minimumCompressionSize := None |}.

(** A configuration with an empty domain list. *)
Definition bare_props : InternalApiGatewayProps :=
  {| stage := Some "dev";
     domains := Some [];
     vpcEndpoint := Some endpoint_one;
     apiBasePathMappingPath := None;
     binaryMediaTypes := None;
     minimumCompressionSize := None |}.

Definition no_stage_props : InternalApiGatewayProps :=
  {| stage := None;
     domains := Some [domain_one];
     vpcEndpoint := Some endpoint_one;
     apiBasePathMappingPath := None;
     binaryMediaTypes := None;
     minimumCompressionSize := None |}.

(** A caller outside the type checker that leaves out the domain list. *)
Definition no_domains_props : InternalApiGatewayProps :=
  {| stage := Some "prod";
     domains := None;
     vpcEndpoint := Some endpoint_one;
     apiBasePathMappingPath := None;
     binaryMediaTypes := None;
     minimumCompressionSize := None |}.

(** A configuration that lists one domain twice, and one whose base path
    starts with a slash. *)
Definition repeated_props : InternalApiGatewayProps :=
  {| stage := Some "prod";
     domains := Some [domain_one; domain_one];
     vpcEndpoint := Some endpoint_one;
     apiBasePathMappingPath := None;
     binaryMediaTypes := None;
     minimumCompressionSize := None |}.

Definition slash_props : InternalApiGatewayProps :=
  {| stage := Some "prod";
     domains := Some [domain_one];
     vpcEndpoint := Some endpoint_one;
     apiBasePathMappingPath := Some "/v1";
     binaryMediaTypes := None;
     minimumCompressionSize := None |}.

(** A request that came through [endpoint_one], and one that came through
    another endpoint. *)
Definition request_via_one : gmap string string :=
  {[ "aws:sourceVpce" := "vpce-1" ]}.

Definition request_via_two : gmap string string :=
  {[ "aws:sourceVpce" := "vpce-2" ]}.


(** ** Names *)

Lemma sanitizeId_empty (id : string) : sanitizeId id = "" <-> id = "".
Proof.
  split; [| intros ->; reflexivity].
  destruct id as [|c rest]; [reflexivity |].
  cbn. destruct (Ascii.eqb c "/"); discriminate.
Qed.

Lemma sanitizeId_gateway (id : string) :
  sanitizeId ("Gateway-" +:+ id) = "Gateway-" +:+ sanitizeId id.
Proof. reflexivity. Qed.

Lemma registeredId_dash (d : apigateway.IDomainName) :
  registeredId d = "-" +:+ sanitizeId (apigateway.toString d).
Proof. reflexivity. Qed.

Lemma registeredId_not_gateway (id : string) (d : apigateway.IDomainName) :
  registeredId d <> sanitizeId ("Gateway-" +:+ id).
Proof. rewrite registeredId_dash, sanitizeId_gateway. discriminate. Qed.

Lemma node_name_gateway (id : string) :
  node_name [] ("Gateway-" +:+ id) = Normal (sanitizeId ("Gateway-" +:+ id)).
Proof.
  unfold node_name. rewrite bool_decide_eq_false_2 by discriminate.
  rewrite bool_decide_eq_false_2 by apply not_elem_of_nil. reflexivity.
Qed.

Lemma scope_admits_name (scope : list string) (id : string) :
  scope_admits scope id = true ->
  node_name scope id = Normal (sanitizeId id).
Proof.
  unfold scope_admits, node_name.
  rewrite andb_true_iff, !negb_true_iff. intros [-> ->]. reflexivity.
Qed.

Lemma scope_refuses_name (scope : list string) (id : string) :
  scope_admits scope id = false ->
  exists e, node_name scope id = Throw e /\ library_error e = true.
Proof.
  unfold scope_admits, node_name.
  destruct (bool_decide (sanitizeId id = "")); [eauto |].
  destruct (bool_decide (sanitizeId id ∈ scope)); [eauto | discriminate].
Qed.

(** ** The state *)

Lemma grow_nil (this : This) : grow this [] = this.
Proof. destruct this. unfold grow. cbn. rewrite app_nil_r. reflexivity. Qed.

Lemma grow_grow (this : This) (a b : list (string * apigateway.Resource)) :
  grow (grow this a) b = grow this (a ++ b)%list.
Proof. unfold grow. cbn. rewrite app_assoc. reflexivity. Qed.

Lemma child_ids_grow (this : This)
    (more : list (string * apigateway.Resource)) :
  child_ids (grow this more) = (child_ids this ++ (fst <$> more))%list.
Proof. unfold child_ids, grow. cbn. apply fmap_app. Qed.

(** ** The loop *)

Section Loop.

Variable accepts : apigateway.Resource -> bool.
Variable props : InternalApiGatewayProps.

(** One pass of the loop, with the handle assigned. *)
Lemma createMapping_run (d : apigateway.IDomainName) (this : This)
    (api : apigateway.Ref) :
  apiGateway this = Some api ->
  createMapping accepts props d this =
    if bool_decide (registeredId d ∈ child_ids this)
    then (Throw (NameTaken (registeredId d)), this)
    else if accepts (mappingChild props api d).2
         then (Normal tt, grow this [mappingChild props api d])
         else (Throw (Rejected (mappingChild props api d).2),
               grow this [mappingChild props api d]).
Proof.
  intros Hapi.
  unfold createMapping, bind, read_apiGateway, read_deploymentStage,
    new_child, node_name.
  rewrite Hapi. fold (registeredId d).
  rewrite (bool_decide_eq_false_2 (registeredId d = ""))
    by (rewrite registeredId_dash; discriminate).
  destruct (bool_decide (registeredId d ∈ child_ids this)); [reflexivity |].
  unfold mappingChild. cbn [snd].
  destruct (accepts _); reflexivity.
Qed.

(** Whatever happens, the loop leaves the mappings of an initial segment
    of the list, in order, and the handle as it was. *)
Lemma for_each_shape (ds : list apigateway.IDomainName) :
  forall this api,
    apiGateway this = Some api ->
    exists k,
      (for_each ds (createMapping accepts props) this).2 =
        grow this (mappingChild props api <$> take k ds) /\
      ((for_each ds (createMapping accepts props) this).1 = Normal tt ->
       take k ds = ds).
Proof.
  induction ds as [|d rest IH]; intros this api Hapi.
  - exists 0. cbn. rewrite grow_nil. split; reflexivity.
  - cbn [for_each]. unfold bind.
    rewrite (createMapping_run d this api Hapi).
    destruct (bool_decide (registeredId d ∈ child_ids this)).
    + exists 0. cbn. rewrite grow_nil. split; [reflexivity | discriminate].
    + destruct (accepts _).
      * destruct (IH (grow this [mappingChild props api d]) api Hapi)
          as (k & Hstate & Hall).
        exists (S k). rewrite Hstate, grow_grow. cbn.
        split; [reflexivity |]. intros Hn. rewrite (Hall Hn). reflexivity.
      * exists 1. cbn. split; [reflexivity | discriminate].
Qed.

(** The loop completes exactly when the names are pairwise different, none
    is taken already, and the library accepts every mapping. *)
Lemma for_each_normal_iff (ds : list apigateway.IDomainName) :
  forall this api,
    apiGateway this = Some api ->
    (for_each ds (createMapping accepts props) this).1 = Normal tt <->
    NoDup (registeredId <$> ds) /\
    (forall d, d ∈ ds -> registeredId d ∉ child_ids this) /\
    Forall (fun d => accepts (mappingChild props api d).2 = true) ds.
Proof.
  induction ds as [|d rest IH]; intros this api Hapi.
  - cbn. split; [intros _ | reflexivity].
    split; [apply NoDup_nil_2 |]. split; [| constructor].
    intros d Hd. apply elem_of_nil in Hd. destruct Hd.
  - cbn [for_each]. unfold bind at 1.
    rewrite (createMapping_run d this api Hapi). rewrite fmap_cons.
    case_bool_decide as Htaken.
    + split; [discriminate |]. intros (_ & Hfree & _).
      destruct (Hfree d); [left | exact Htaken].
    + destruct (accepts (mappingChild props api d).2) eqn:Hacc.
      * rewrite (IH (grow this [mappingChild props api d]) api Hapi).
        rewrite NoDup_cons, Forall_cons, child_ids_grow. cbn [fmap list_fmap fst mappingChild].
        split.
        -- intros (Hnd & Hfree & Hall). split; [split; [| exact Hnd] |].
           ++ intros Hin. apply list_elem_of_fmap in Hin as (d' & Heq & Hd').
              apply (Hfree d' Hd'). rewrite <- Heq.
              apply elem_of_app. right. left.
           ++ split; [| split; [exact Hacc | exact Hall]].
              intros d' Hd'. apply elem_of_cons in Hd' as [-> | Hd'];
                [exact Htaken |].
              intros Hin. apply (Hfree d' Hd'), elem_of_app. left. exact Hin.
        -- intros ((Hnew & Hnd) & Hfree & _ & Hall).
           split; [exact Hnd |]. split; [| exact Hall].
           intros d' Hd' Hin. apply elem_of_app in Hin as [Hin | Hin].
           ++ apply (Hfree d'); [right; exact Hd' | exact Hin].
           ++ apply list_elem_of_singleton in Hin. apply Hnew.
              rewrite <- Hin. apply list_elem_of_fmap_2. exact Hd'.
      * split; [discriminate |]. intros (_ & _ & Hall).
        apply Forall_cons in Hall as [Hd _]. congruence.
Qed.

(** The loop throws errors of the library only. *)
Lemma for_each_throws_library (ds : list apigateway.IDomainName) :
  forall this api e,
    apiGateway this = Some api ->
    (for_each ds (createMapping accepts props) this).1 = Throw e ->
    library_error e = true.
Proof.
  induction ds as [|d rest IH]; intros this api e Hapi.
  - discriminate.
  - cbn [for_each]. unfold bind at 1.
    rewrite (createMapping_run d this api Hapi).
    destruct (bool_decide (registeredId d ∈ child_ids this)).
    + intros [= <-]. reflexivity.
    + destruct (accepts _).
      * apply (IH _ api). exact Hapi.
      * intros [= <-]. reflexivity.
Qed.

(** Running the loop over a longer list goes through the run over the
    shorter one. *)
Lemma for_each_app (ds1 ds2 : list apigateway.IDomainName) (this : This) :
  for_each (ds1 ++ ds2)%list (createMapping accepts props) this =
    match for_each ds1 (createMapping accepts props) this with
    | (Normal _, this') => for_each ds2 (createMapping accepts props) this'
    | (Throw e, this') => (Throw e, this')
    end.
Proof.
  revert this. induction ds1 as [|d rest IH]; intros this; [reflexivity |].
  cbn [for_each app]. unfold bind.
  destruct (createMapping accepts props d this) as [[[]|e] this'];
    [apply IH | reflexivity].
Qed.

End Loop.

(** ** Running the constructor *)

Lemma well_typed_fields (props : InternalApiGatewayProps) :
  well_typed props = true ->
  exists name ds endpoint,
    stage props = Some name /\ domains props = Some ds /\
    vpcEndpoint props = Some endpoint.
Proof.
  unfold well_typed. rewrite !andb_true_iff, !bool_decide_eq_true.
  intros [[[name Hn] [ds Hd]] [endpoint He]]. eauto 6.
Qed.

Lemma apiResourcePolicy_run (props : InternalApiGatewayProps) endpoint this :
  vpcEndpoint props = Some endpoint ->
  apiResourcePolicy props this =
    (Normal (policyDocument (ec2.vpcEndpointId endpoint)
                            (ec2.vpcEndpointId endpoint)), this).
Proof.
  intros He. unfold apiResourcePolicy, bind, read_vpcEndpointId.
  rewrite He. reflexivity.
Qed.

Section Run.

Variable accepts : apigateway.Resource -> bool.
Variable scope : list string.
Variable id : string.
Variable props : InternalApiGatewayProps.

(** [super] throws: nothing else runs. *)
Lemma constructor_super_throws :
  scope_admits scope id = false ->
  exists e,
    constructor accepts scope id props = (Throw e, blank) /\
    library_error e = true.
Proof.
  intros Hs. destruct (scope_refuses_name scope id Hs) as (e & Hname & He).
  exists e. split; [| exact He].
  unfold constructor, constructor_body, bind, super. rewrite Hname.
  reflexivity.
Qed.

(** Without an endpoint the first property read throws. *)
Lemma constructor_no_endpoint :
  scope_admits scope id = true ->
  vpcEndpoint props = None ->
  constructor accepts scope id props = (Throw TypeError, named id).
Proof.
  intros Hs He.
  unfold constructor, constructor_body, bind, super.
  rewrite (scope_admits_name scope id Hs).
  unfold apiResourcePolicy, bind, read_vpcEndpointId. rewrite He.
  reflexivity.
Qed.

(** The library turns the gateway down: it is registered, the handle is
    not assigned. *)
Lemma constructor_gateway_rejected endpoint :
  scope_admits scope id = true ->
  vpcEndpoint props = Some endpoint ->
  accepts (gatewayChild id props endpoint).2 = false ->
  constructor accepts scope id props =
    (Throw (Rejected (gatewayChild id props endpoint).2),
     grow (named id) [gatewayChild id props endpoint]).
Proof.
  intros Hs He Hacc.
  unfold constructor, constructor_body, bind, super.
  rewrite (scope_admits_name scope id Hs).
  rewrite (apiResourcePolicy_run props endpoint) by exact He.
  unfold new_child. cbn [children child_ids fmap list_fmap].
  rewrite node_name_gateway. cbn [gatewayChild snd] in Hacc.
  rewrite Hacc. reflexivity.
Qed.

(** The gateway is created and the handle assigned; what remains is the
    loop. *)
Lemma constructor_loop endpoint :
  scope_admits scope id = true ->
  vpcEndpoint props = Some endpoint ->
  accepts (gatewayChild id props endpoint).2 = true ->
  constructor accepts scope id props =
    for_of (domains props) (createMapping accepts props)
      (with_gateway id props endpoint).
Proof.
  intros Hs He Hacc.
  unfold constructor, constructor_body, bind, super.
  rewrite (scope_admits_name scope id Hs).
  rewrite (apiResourcePolicy_run props endpoint) by exact He.
  unfold new_child. cbn [children child_ids fmap list_fmap].
  rewrite node_name_gateway. cbn [gatewayChild snd] in Hacc.
  rewrite Hacc. reflexivity.
Qed.

Lemma with_gateway_fresh endpoint (d : apigateway.IDomainName) :
  registeredId d ∉ child_ids (with_gateway id props endpoint).
Proof.
  unfold child_ids. cbn. intros Hin.
  apply list_elem_of_singleton in Hin.
  exact (registeredId_not_gateway id d Hin).
Qed.

Lemma mappings_admitted_spec (ds : list apigateway.IDomainName) :
  mappings_admitted accepts props ds = true <->
  NoDup (registeredId <$> ds) /\
  Forall (fun d => accepts (mappingChild props 0 d).2 = true) ds.
Proof.
  unfold mappings_admitted.
  rewrite andb_true_iff, bool_decide_eq_true, forallb_forall.
  rewrite Forall_forall. split; intros [Hnd Hall]; (split; [exact Hnd |]).
  - intros d Hd. apply Hall, list_elem_of_In, Hd.
  - intros d Hd. apply Hall, list_elem_of_In, Hd.
Qed.

(** The constructor completes exactly when the library admits every
    construct it asks for and both the endpoint and the domain list are
    there. *)
Lemma constructor_normal_iff :
  (constructor accepts scope id props).1 = Normal tt <->
  library_admits accepts scope id props = true.
Proof.
  unfold library_admits, gateway_admitted.
  destruct (scope_admits scope id) eqn:Hs.
  - destruct (vpcEndpoint props) as [endpoint|] eqn:He.
    + destruct (accepts (gatewayChild id props endpoint).2) eqn:Hacc.
      * rewrite (constructor_loop endpoint Hs He Hacc).
        destruct (domains props) as [ds|]; [| split; discriminate].
        cbn [for_of andb].
        rewrite (for_each_normal_iff accepts props ds _ 0) by reflexivity.
        rewrite mappings_admitted_spec. split.
        -- intros (Hnd & _ & Hall). split; assumption.
        -- intros (Hnd & Hall). split; [exact Hnd |].
           split; [| exact Hall]. intros d _. apply with_gateway_fresh.
      * rewrite (constructor_gateway_rejected endpoint Hs He Hacc).
        split; discriminate.
    + rewrite (constructor_no_endpoint Hs He). split; discriminate.
  - destruct (constructor_super_throws Hs) as (e & -> & _).
    split; discriminate.
Qed.

(** With everything admitted: the gateway followed by the mappings. *)
Lemma constructor_run endpoint ds :
  library_admits accepts scope id props = true ->
  vpcEndpoint props = Some endpoint ->
  domains props = Some ds ->
  constructor accepts scope id props =
    (Normal tt,
     grow (with_gateway id props endpoint) (mappingChild props 0 <$> ds)).
Proof.
  intros Hadm He Hd.
  pose proof (proj2 constructor_normal_iff Hadm) as Hnormal.
  unfold library_admits, gateway_admitted in Hadm. rewrite He, Hd in Hadm.
  apply andb_true_iff in Hadm as [Hadm _].
  apply andb_true_iff in Hadm as [Hs Hacc].
  rewrite (constructor_loop endpoint Hs He Hacc), Hd in Hnormal |- *.
  cbn [for_of] in Hnormal |- *.
  destruct (for_each_shape accepts props ds
              (with_gateway id props endpoint) 0 eq_refl)
    as (k & Hstate & Hall).
  rewrite (Hall Hnormal) in Hstate.
  destruct (for_each ds _ _) as [c this]. cbn in Hnormal, Hstate.
  subst. reflexivity.
Qed.

(** How [this] can be left: untouched; named only; with a gateway the
    library turned down; or with the gateway, the handle, and the mappings
    of an initial segment of the domain list. *)
Lemma constructor_state :
  (constructor accepts scope id props).2 = blank \/
  (constructor accepts scope id props).2 = named id \/
  (exists endpoint,
     vpcEndpoint props = Some endpoint /\
     (constructor accepts scope id props).2 =
       grow (named id) [gatewayChild id props endpoint]) \/
  (exists endpoint k,
     vpcEndpoint props = Some endpoint /\
     (constructor accepts scope id props).2 =
       grow (with_gateway id props endpoint)
         (mappingChild props 0 <$> take k (default [] (domains props)))).
Proof.
  destruct (scope_admits scope id) eqn:Hs.
  - destruct (vpcEndpoint props) as [endpoint|] eqn:He.
    + destruct (accepts (gatewayChild id props endpoint).2) eqn:Hacc.
      * right; right; right. exists endpoint.
        rewrite (constructor_loop endpoint Hs He Hacc).
        destruct (domains props) as [ds|].
        -- destruct (for_each_shape accepts props ds
                       (with_gateway id props endpoint) 0 eq_refl)
             as (k & Hstate & _).
           exists k. split; [reflexivity | exact Hstate].
        -- exists 0. split; [reflexivity |]. cbn. rewrite grow_nil.
           reflexivity.
      * right; right; left. exists endpoint. split; [reflexivity |].
        rewrite (constructor_gateway_rejected endpoint Hs He Hacc).
        reflexivity.
    + right; left. rewrite (constructor_no_endpoint Hs He). reflexivity.
  - left. destruct (constructor_super_throws Hs) as (e & -> & _).
    reflexivity.
Qed.

End Run.

(** ** Observing the constructed object *)

Section Observe.

Variable accepts : apigateway.Resource -> bool.
Variable scope : list string.
Variable id : string.
Variable props : InternalApiGatewayProps.

Lemma gateways_mappingChild api (ds : list apigateway.IDomainName) :
  omap as_gateway (mappingChild props api <$> ds) = [].
Proof. induction ds as [|d rest IH]; [reflexivity | exact IH]. Qed.

Lemma mappings_mappingChild api (ds : list apigateway.IDomainName) :
  omap as_mapping (mappingChild props api <$> ds) =
  (fun d => (registeredId d,
             mappingProps props d (Some api)
               (apigateway.deploymentStage api))) <$> ds.
Proof.
  induction ds as [|d rest IH]; [reflexivity |].
  cbn. f_equal. exact IH.
Qed.

Lemma gateways_grow (this : This) api (ds : list apigateway.IDomainName) :
  gateways (grow this (mappingChild props api <$> ds)) = gateways this.
Proof.
  unfold gateways, grow. cbn [children].
  rewrite omap_app, gateways_mappingChild. apply app_nil_r.
Qed.

Lemma mappings_with_gateway endpoint (ds : list apigateway.IDomainName) :
  mappings (grow (with_gateway id props endpoint)
              (mappingChild props 0 <$> ds)) =
  (fun d => (registeredId d,
             mappingProps props d (Some 0)
               (apigateway.deploymentStage 0))) <$> ds.
Proof.
  unfold mappings, grow. cbn [children with_gateway].
  rewrite omap_app. cbn [omap list_omap as_mapping gatewayChild snd app].
  apply mappings_mappingChild.
Qed.

(** Once [super] has returned and the endpoint is there, [this] holds the
    gateway, and no other. *)
Lemma gateways_run endpoint :
  scope_admits scope id = true ->
  vpcEndpoint props = Some endpoint ->
  gateways (constructor accepts scope id props).2 =
    [(sanitizeId ("Gateway-" +:+ id),
      gatewayProps props
        (policyDocument (ec2.vpcEndpointId endpoint)
                        (ec2.vpcEndpointId endpoint)))].
Proof.
  intros Hs He.
  destruct (accepts (gatewayChild id props endpoint).2) eqn:Hacc.
  - rewrite (constructor_loop accepts scope id props endpoint Hs He Hacc).
    destruct (domains props) as [ds|]; [| reflexivity].
    cbn [for_of].
    destruct (for_each_shape accepts props ds
                (with_gateway id props endpoint) 0 eq_refl)
      as (k & -> & _).
    rewrite gateways_grow. reflexivity.
  - rewrite (constructor_gateway_rejected accepts scope id props endpoint
               Hs He Hacc).
    reflexivity.
Qed.

(** Whatever happens, the mappings of [this] are those of an initial
    segment of the domain list, in order. *)
Lemma mappings_shape :
  exists k,
    mappings (constructor accepts scope id props).2 =
    (fun d => (registeredId d,
               mappingProps props d (Some 0)
                 (apigateway.deploymentStage 0))) <$>
    take k (default [] (domains props)).
Proof.
  destruct (constructor_state accepts scope id props)
    as [-> | [-> | [(endpoint & _ & ->) | (endpoint & k & _ & ->)]]].
  - exists 0. reflexivity.
  - exists 0. reflexivity.
  - exists 0. reflexivity.
  - exists k. apply mappings_with_gateway.
Qed.

(** With everything admitted, the mappings of the whole list. *)
Lemma mappings_run endpoint ds :
  library_admits accepts scope id props = true ->
  vpcEndpoint props = Some endpoint ->
  domains props = Some ds ->
  mappings (constructor accepts scope id props).2 =
    (fun d => (registeredId d,
               mappingProps props d (Some 0)
                 (apigateway.deploymentStage 0))) <$> ds.
Proof.
  intros Hadm He Hd.
  rewrite (constructor_run accepts scope id props endpoint ds Hadm He Hd).
  apply mappings_with_gateway.
Qed.

(** The handle is written at most once, and only to the gateway. *)
Lemma handle_state :
  (apiGateway (constructor accepts scope id props).2 = None /\
   apiGateway_writes (constructor accepts scope id props).2 = 0 /\
   mappings (constructor accepts scope id props).2 = []) \/
  (apiGateway (constructor accepts scope id props).2 = Some 0 /\
   apiGateway_writes (constructor accepts scope id props).2 = 1).
Proof.
  destruct (constructor_state accepts scope id props)
    as [-> | [-> | [(endpoint & _ & ->) | (endpoint & k & _ & ->)]]].
  - left. repeat split.
  - left. repeat split.
  - left. repeat split.
  - right. split; reflexivity.
Qed.

(** The children of [this] never share a name. *)
Lemma child_ids_NoDup :
  NoDup (child_ids (constructor accepts scope id props).2).
Proof.
  assert (Hloop : forall ds this api,
            apiGateway this = Some api ->
            NoDup (child_ids this) ->
            NoDup (child_ids
                     (for_each ds (createMapping accepts props) this).2)).
  { induction ds as [|d rest IH]; intros this api Hapi Hnd; [exact Hnd |].
    cbn [for_each]. unfold bind.
    rewrite (createMapping_run accepts props d this api Hapi).
    case_bool_decide as Htaken; [exact Hnd |].
    assert (Hnd' : NoDup (child_ids (grow this [mappingChild props api d]))).
    { rewrite child_ids_grow. apply NoDup_app. split; [exact Hnd |].
      split; [| apply NoDup_singleton].
      intros x Hx Hx'. apply list_elem_of_singleton in Hx'. subst x.
      exact (Htaken Hx). }
    destruct (accepts _); [| exact Hnd'].
    apply (IH _ api); [exact Hapi | exact Hnd']. }
  destruct (scope_admits scope id) eqn:Hs.
  - destruct (vpcEndpoint props) as [endpoint|] eqn:He.
    + destruct (accepts (gatewayChild id props endpoint).2) eqn:Hacc.
      * rewrite (constructor_loop accepts scope id props endpoint Hs He
                   Hacc).
        destruct (domains props) as [ds|]; cbn [for_of throw snd].
        -- apply (Hloop ds _ 0); [reflexivity | apply NoDup_singleton].
        -- apply NoDup_singleton.
      * rewrite (constructor_gateway_rejected accepts scope id props
                   endpoint Hs He Hacc).
        apply NoDup_singleton.
    + rewrite (constructor_no_endpoint accepts scope id props Hs He).
      apply NoDup_nil_2.
  - destruct (constructor_super_throws accepts scope id props Hs)
      as (e & -> & _).
    apply NoDup_nil_2.
Qed.

Lemma mapping_ids_NoDup :
  NoDup (fst <$> mappings (constructor accepts scope id props).2).
Proof.
  pose proof child_ids_NoDup as Hnd. unfold child_ids in Hnd.
  unfold mappings. revert Hnd.
  generalize (children (constructor accepts scope id props).2).
  induction l as [|[name r] l IH]; intros Hnd; [apply NoDup_nil_2 |].
  rewrite fmap_cons in Hnd. apply NoDup_cons in Hnd as [Hname Hnd].
  destruct r as [p | p]; cbn; [exact (IH Hnd) |].
  apply NoDup_cons. split; [| exact (IH Hnd)].
  intros Hin. apply Hname.
  apply list_elem_of_fmap in Hin as ([name' p'] & Heq & Hin').
  apply list_elem_of_omap in Hin' as ([name'' r''] & Hin'' & Hmap).
  unfold as_mapping in Hmap. cbn in Hmap, Heq.
  destruct r''; [discriminate |]. injection Hmap as -> ->. subst name.
  apply list_elem_of_fmap. exists (name', apigateway.BasePathMapping p').
  split; [reflexivity | exact Hin''].
Qed.

End Observe.

(** ** The base path and the policy *)

Lemma fmap_constant {A B} (b : B) (l : list A) :
  (fun _ => b) <$> l = replicate (length l) b.
Proof. induction l as [|a l IH]; [reflexivity | cbn; f_equal; exact IH]. Qed.

Lemma selectBasePath_unset (props : InternalApiGatewayProps) :
  apiBasePathMappingPath props = None -> selectBasePath props = Some "".
Proof. intros H. unfold selectBasePath. rewrite H. reflexivity. Qed.

Lemma selectBasePath_nonempty (props : InternalApiGatewayProps)
    (path : string) :
  apiBasePathMappingPath props = Some path -> path <> "" ->
  selectBasePath props = Some path.
Proof.
  intros H Hne. unfold selectBasePath. rewrite H. cbn [truthy].
  rewrite bool_decide_eq_false_2 by exact Hne. reflexivity.
Qed.

Lemma selectBasePath_empty (props : InternalApiGatewayProps) :
  apiBasePathMappingPath props = Some "" -> selectBasePath props = Some "".
Proof. intros H. unfold selectBasePath. rewrite H. reflexivity. Qed.

Lemma selectBasePath_string (props : InternalApiGatewayProps) :
  exists path, selectBasePath props = Some path.
Proof.
  destruct (apiBasePathMappingPath props) as [path|] eqn:E.
  - destruct (decide (path = "")) as [->|Hne].
    + exists "". apply selectBasePath_empty, E.
    + exists path. apply selectBasePath_nonempty; assumption.
  - exists "". apply selectBasePath_unset, E.
Qed.

(** The two conditions of the policy never hold together and never fail
    together. *)
Lemma conditions_complementary (vpce : string)
    (request : gmap string string) :
  iam.conditions_hold request
    {[ "StringNotEquals" := {[ "aws:sourceVpce" := vpce ]} ]} =
  negb (iam.conditions_hold request
          {[ "StringEquals" := {[ "aws:sourceVpce" := vpce ]} ]}).
Proof.
  unfold iam.conditions_hold, iam.block_holds.
  rewrite !map_to_list_singleton. cbn [forallb fst snd].
  rewrite !map_to_list_singleton. cbn [forallb fst snd].
  unfold iam.operator_holds.
  rewrite !andb_true_r.
  rewrite (decide_False (P := "StringNotEquals" = "StringEquals"))
    by discriminate.
  rewrite !decide_True by reflexivity. reflexivity.
Qed.

Lemma policyDocument_gate (vpce : string) :
  endpoint_gate vpce (policyDocument vpce vpce).
Proof.
  eexists _, _. split; [reflexivity |].
  repeat (split; [reflexivity |]).
  intros request. apply conditions_complementary.
Qed.

(** What the two conditions of [policyDocument] ask of a request. *)
Lemma allow_condition_iff (vpce : string) (request : gmap string string) :
  iam.conditions_hold request
    {[ "StringEquals" := {[ "aws:sourceVpce" := vpce ]} ]} = true <->
  request !! "aws:sourceVpce" = Some vpce.
Proof.
  unfold iam.conditions_hold, iam.block_holds.
  rewrite !map_to_list_singleton. cbn [forallb fst snd].
  rewrite !map_to_list_singleton. cbn [forallb fst snd].
  unfold iam.operator_holds. rewrite !andb_true_r.
  rewrite decide_True by reflexivity. apply bool_decide_eq_true.
Qed.

Lemma deny_condition_iff (vpce : string) (request : gmap string string) :
  iam.conditions_hold request
    {[ "StringNotEquals" := {[ "aws:sourceVpce" := vpce ]} ]} = true <->
  request !! "aws:sourceVpce" <> Some vpce.
Proof.
  rewrite conditions_complementary, negb_true_iff.
  rewrite <- allow_condition_iff.
  destruct (iam.conditions_hold _ _); split; congruence.
Qed.

Lemma policyDocument_inj (a a' b b' : string) :
  policyDocument a a' = policyDocument b b' -> a = b /\ a' = b'.
Proof.
  intros H.
  pose proof (f_equal (fun doc =>
      st ← head (iam.statements doc);
      block ← iam.conditions st !! "StringNotEquals";
      block !! "aws:sourceVpce") H) as Hdeny.
  pose proof (f_equal (fun doc =>
      st ← last (iam.statements doc);
      block ← iam.conditions st !! "StringEquals";
      block !! "aws:sourceVpce") H) as Hallow.
  unfold policyDocument in Hdeny, Hallow.
  cbn [iam.statements head last iam.conditions mbind option_bind]
    in Hdeny, Hallow.
  rewrite !lookup_singleton_eq in Hdeny, Hallow.
  cbn [mbind option_bind] in Hdeny, Hallow.
  rewrite !lookup_singleton_eq in Hdeny, Hallow.
  split; congruence.
Qed.

Lemma selectBasePath_idempotent (props : InternalApiGatewayProps) :
  selectBasePath (with_basePath (selectBasePath props) props) =
  selectBasePath props.
Proof.
  destruct (apiBasePathMappingPath props) as [path|] eqn:E.
  - destruct (decide (path = "")) as [->|Hne].
    + rewrite (selectBasePath_empty props E). reflexivity.
    + rewrite (selectBasePath_nonempty props path E Hne).
      apply selectBasePath_nonempty; [reflexivity | exact Hne].
  - rewrite (selectBasePath_unset props E). reflexivity.
Qed.

(** The run depends on the configured base path only through the value the
    conditional selects. *)
Lemma constructor_basePath_ext (accepts : apigateway.Resource -> bool)
    (scope : list string) (id : string)
    (props : InternalApiGatewayProps) (p q : option string) :
  selectBasePath (with_basePath p props) =
    selectBasePath (with_basePath q props) ->
  constructor accepts scope id (with_basePath p props) =
    constructor accepts scope id (with_basePath q props).
Proof.
  intros Hsel.
  unfold constructor, constructor_body, createMapping, mappingProps.
  rewrite Hsel. reflexivity.
Qed.

Section BasePath.

Variable accepts : apigateway.Resource -> bool.
Variable scope : list string.
Variable id : string.
Variable props : InternalApiGatewayProps.

(** Every mapping that exists carries what the conditional selects. *)
Lemma basePaths_carried (path : string) :
  selectBasePath props = Some path ->
  carry_basePath (constructor accepts scope id props).2 path.
Proof.
  intros Hp. unfold carry_basePath.
  destruct (mappings_shape accepts scope id props) as [k ->].
  apply Forall_fmap, Forall_true. intros d. exact Hp.
Qed.

(** With everything admitted there are as many as there are domains. *)
Lemma basePaths_run endpoint ds (path : string) :
  library_admits accepts scope id props = true ->
  vpcEndpoint props = Some endpoint ->
  domains props = Some ds ->
  selectBasePath props = Some path ->
  shared_basePath (constructor accepts scope id props).2 (length ds) path.
Proof.
  intros Hadm He Hd Hp. unfold shared_basePath.
  rewrite (mappings_run accepts scope id props endpoint ds Hadm He Hd).
  rewrite <- list_fmap_compose. unfold compose.
  cbn [snd mappingProps apigateway.basePath]. rewrite Hp.
  apply fmap_constant.
Qed.

Lemma gateway_policies_run endpoint :
  scope_admits scope id = true ->
  vpcEndpoint props = Some endpoint ->
  gateway_policies (constructor accepts scope id props).2 =
    [Some (policyDocument (ec2.vpcEndpointId endpoint)
                          (ec2.vpcEndpointId endpoint))].
Proof.
  intros Hs He. unfold gateway_policies.
  rewrite (gateways_run accepts scope id props endpoint Hs He). reflexivity.
Qed.

Lemma library_admits_fields :
  library_admits accepts scope id props = true ->
  exists endpoint ds,
    vpcEndpoint props = Some endpoint /\ domains props = Some ds /\
    scope_admits scope id = true /\
    accepts (gatewayChild id props endpoint).2 = true /\
    mappings_admitted accepts props ds = true.
Proof.
  unfold library_admits, gateway_admitted.
  rewrite !andb_true_iff.
  destruct (vpcEndpoint props) as [endpoint|];
    [| intros [[_ H] _]; discriminate H].
  destruct (domains props) as [ds|]; [| intros [_ H]; discriminate H].
  intros [[Hs Hg] Hm]. eauto 8.
Qed.

End BasePath.

(** ** The claims *)

(** C1.  For every configuration, the policy document the constructor binds
    to the gateway has exactly two statements, a deny and an allow, both for
    any principal on [execute-api:Invoke] over the same wildcard resource
    pattern; the deny is conditioned by [StringNotEquals] and the allow by
    [StringEquals] on [aws:sourceVpce], both against the identifier of the
    configured endpoint, and the two conditions are negations of each
    other on every request.  (The gateway exists once [super] has
    returned.) *)
Theorem policy_two_complementary_statements
    (accepts : apigateway.Resource -> bool) (scope : list string)
    (id : string) (props : InternalApiGatewayProps)
    (endpoint : ec2.IInterfaceVpcEndpoint) :
  well_typed props = true ->
  scope_admits scope id = true ->
  vpcEndpoint props = Some endpoint ->
  exists gateway doc,
    sole_gateway (constructor accepts scope id props).2 gateway /\
    apigateway.policy gateway = Some doc /\
    endpoint_gate (ec2.vpcEndpointId endpoint) doc.
Proof.
  intros _ Hs He. eexists _, _. split.
  - eexists. apply (gateways_run accepts scope id props endpoint Hs He).
  - split; [reflexivity | apply policyDocument_gate].
Qed.

Lemma policy_two_complementary_statements_witness :
  well_typed prod_props = true /\
  scope_admits [] "Api" = true /\
  vpcEndpoint prod_props = Some endpoint_one /\
  exists gateway doc,
    sole_gateway (constructor cdk_accepts [] "Api" prod_props).2 gateway /\
    apigateway.policy gateway = Some doc /\
    endpoint_gate "vpce-1" doc.
Proof.
  repeat (split; [reflexivity |]).
  exact (policy_two_complementary_statements cdk_accepts [] "Api" prod_props
           endpoint_one eq_refl eq_refl eq_refl).
Defined.

(** C3.  For every configuration the gateway is created with endpoint type
    PRIVATE, with the supplied VPC endpoint as its only endpoint, and with
    the two-statement resource policy as its policy. *)
Theorem gateway_private_single_endpoint
    (accepts : apigateway.Resource -> bool) (scope : list string)
    (id : string) (props : InternalApiGatewayProps)
    (endpoint : ec2.IInterfaceVpcEndpoint) :
  well_typed props = true ->
  scope_admits scope id = true ->
  vpcEndpoint props = Some endpoint ->
  exists gateway doc,
    sole_gateway (constructor accepts scope id props).2 gateway /\
    apigateway.endpointConfiguration gateway =
      Some {| apigateway.types := [apigateway.PRIVATE];
              apigateway.vpcEndpoints := Some [Some endpoint] |} /\
    apigateway.policy gateway = Some doc /\
    length (iam.statements doc) = 2 /\
    endpoint_gate (ec2.vpcEndpointId endpoint) doc.
Proof.
  intros _ Hs He. eexists _, _. split.
  - eexists. apply (gateways_run accepts scope id props endpoint Hs He).
  - cbn [gatewayProps apigateway.endpointConfiguration apigateway.policy].
    rewrite He. repeat (split; [reflexivity |]). apply policyDocument_gate.
Qed.

Lemma gateway_private_single_endpoint_witness :
  well_typed prod_props = true /\
  scope_admits [] "Api" = true /\
  vpcEndpoint prod_props = Some endpoint_one /\
  exists gateway doc,
    sole_gateway (constructor cdk_accepts [] "Api" prod_props).2 gateway /\
    apigateway.endpointConfiguration gateway =
      Some {| apigateway.types := [apigateway.PRIVATE];
              apigateway.vpcEndpoints := Some [Some endpoint_one] |} /\
    apigateway.policy gateway = Some doc /\
    length (iam.statements doc) = 2 /\
    endpoint_gate "vpce-1" doc.
Proof.
  repeat (split; [reflexivity |]).
  exact (gateway_private_single_endpoint cdk_accepts [] "Api" prod_props
           endpoint_one eq_refl eq_refl eq_refl).
Defined.

(** C4.  For every configuration the configured stage name is, unchanged,
    the stage name in the deployment options of the gateway. *)
Theorem stage_name_verbatim
    (accepts : apigateway.Resource -> bool) (scope : list string)
    (id : string) (props : InternalApiGatewayProps) (name : string) :
  well_typed props = true ->
  scope_admits scope id = true ->
  stage props = Some name ->
  exists gateway,
    sole_gateway (constructor accepts scope id props).2 gateway /\
    apigateway.deployOptions gateway =
      Some {| apigateway.stageName := Some name |}.
Proof.
  intros Hwt Hs Hn.
  destruct (well_typed_fields props Hwt) as (name' & ds & e & _ & _ & He).
  eexists. split.
  - eexists. apply (gateways_run accepts scope id props e Hs He).
  - cbn [gatewayProps apigateway.deployOptions]. rewrite Hn. reflexivity.
Qed.

Lemma stage_name_verbatim_witness :
  well_typed prod_props = true /\
  scope_admits [] "Api" = true /\
  stage prod_props = Some "prod" /\
  exists gateway,
    sole_gateway (constructor cdk_accepts [] "Api" prod_props).2 gateway /\
    apigateway.deployOptions gateway =
      Some {| apigateway.stageName := Some "prod" |}.
Proof.
  repeat (split; [reflexivity |]).
  exact (stage_name_verbatim cdk_accepts [] "Api" prod_props "prod"
           eq_refl eq_refl eq_refl).
Defined.

(** C6.  For every configuration the gateway carries the binary media types
    and the minimum compression size of the configuration unchanged: left
    out, the gateway has neither; given [application/octet-stream] and 1024,
    the gateway has exactly these. *)
Theorem binary_and_compression_pass_through
    (accepts : apigateway.Resource -> bool) (scope : list string)
    (id : string) (props : InternalApiGatewayProps) :
  well_typed props = true ->
  scope_admits scope id = true ->
  exists gateway,
    sole_gateway (constructor accepts scope id props).2 gateway /\
    apigateway.binaryMediaTypes gateway = binaryMediaTypes props /\
    apigateway.minimumCompressionSize gateway =
      minimumCompressionSize props /\
    (binaryMediaTypes props = None ->
     minimumCompressionSize props = None ->
     apigateway.binaryMediaTypes gateway = None /\
     apigateway.minimumCompressionSize gateway = None) /\
    (binaryMediaTypes props = Some ["application/octet-stream"] ->
     minimumCompressionSize props = Some 1024%Z ->
     apigateway.binaryMediaTypes gateway =
       Some ["application/octet-stream"] /\
     apigateway.minimumCompressionSize gateway = Some 1024%Z).
Proof.
  intros Hwt Hs.
  destruct (well_typed_fields props Hwt) as (name & ds & e & _ & _ & He).
  eexists. split.
  - eexists. apply (gateways_run accepts scope id props e Hs He).
  - cbn [gatewayProps apigateway.binaryMediaTypes
         apigateway.minimumCompressionSize].
    repeat split; congruence.
Qed.

Lemma binary_and_compression_pass_through_witness :
  well_typed binary_props = true /\
  scope_admits [] "Api" = true /\
  exists gateway,
    sole_gateway (constructor cdk_accepts [] "Api" binary_props).2 gateway /\
    apigateway.binaryMediaTypes gateway =
      Some ["application/octet-stream"] /\
    apigateway.minimumCompressionSize gateway = Some 1024%Z.
Proof.
  repeat (split; [reflexivity |]).
  destruct (binary_and_compression_pass_through cdk_accepts [] "Api"
              binary_props eq_refl eq_refl)
    as (gateway & Hsole & _ & _ & _ & Hgiven).
  exists gateway. split; [exact Hsole |].
  exact (Hgiven eq_refl eq_refl).
Defined.

(** C2, as amended.  The mappings the constructor creates are those of an
    initial segment of the domain list, in the order of the list, each on
    the deployment stage of the gateway.  When the library admits every
    construct (in particular when the names of the mappings are pairwise
    different) the constructor completes with exactly one mapping per
    domain; an empty list gives no mapping.  When two entries get the same
    name the constructor does not complete and creates fewer mappings than
    there are domains. *)
Theorem one_mapping_per_domain
    (accepts : apigateway.Resource -> bool) (scope : list string)
    (id : string) (props : InternalApiGatewayProps)
    (ds : list apigateway.IDomainName) :
  well_typed props = true ->
  domains props = Some ds ->
  (exists k,
     (fun m => apigateway.mappingDomainName m.2) <$>
       mappings (constructor accepts scope id props).2 = take k ds) /\
  on_gateway_stage (constructor accepts scope id props).2 /\
  (library_admits accepts scope id props = true ->
   (constructor accepts scope id props).1 = Normal tt /\
   maps_each_domain (constructor accepts scope id props).2 ds) /\
  (ds = [] -> mappings (constructor accepts scope id props).2 = []) /\
  (~ NoDup (registeredId <$> ds) ->
   (constructor accepts scope id props).1 <> Normal tt /\
   length (mappings (constructor accepts scope id props).2) < length ds).
Proof.
  intros Hwt Hd.
  destruct (mappings_shape accepts scope id props) as [k Hk].
  rewrite Hd in Hk. change (default [] (Some ds)) with ds in Hk.
  assert (Hstage : on_gateway_stage (constructor accepts scope id props).2).
  { unfold on_gateway_stage.
    destruct (constructor_state accepts scope id props)
      as [-> | [-> | [(e & _ & ->) | (e & k' & _ & ->)]]];
      try (apply Forall_nil_2).
    rewrite mappings_with_gateway. apply Forall_fmap, Forall_true.
    intros d. exists 0. eexists _, _. split; reflexivity. }
  split; [| split; [exact Hstage | split; [| split]]].
  - exists k. rewrite Hk, <- list_fmap_compose. apply list_fmap_id.
  - intros Hadm.
    destruct (library_admits_fields accepts scope id props Hadm)
      as (e & ds' & He & Hd' & _).
    assert (ds' = ds) as -> by congruence.
    pose proof (mappings_run accepts scope id props e ds Hadm He Hd) as Hm.
    split; [apply constructor_normal_iff, Hadm |].
    unfold maps_each_domain. rewrite Hm. split; [apply length_fmap |].
    split; [rewrite <- list_fmap_compose; apply list_fmap_id |].
    rewrite (constructor_run accepts scope id props e ds Hadm He Hd).
    exists 0. eexists _, _. split; [reflexivity |].
    apply Forall_fmap, Forall_true. intros d. reflexivity.
  - intros ->. rewrite Hk, take_nil. reflexivity.
  - intros Hdup. split.
    + intros Hnormal. apply constructor_normal_iff in Hnormal.
      destruct (library_admits_fields accepts scope id props Hnormal)
        as (e & ds' & _ & Hd' & _ & _ & Hm).
      assert (ds' = ds) as -> by congruence.
      apply mappings_admitted_spec in Hm as [Hnd _]. exact (Hdup Hnd).
    + pose proof (mapping_ids_NoDup accepts scope id props) as Hnd.
      rewrite Hk, <- list_fmap_compose in Hnd. rewrite Hk, length_fmap.
      destruct (decide (k < length ds)) as [Hlt | Hge].
      * rewrite length_take. lia.
      * rewrite take_ge in Hnd by lia. destruct (Hdup Hnd).
Qed.

Lemma one_mapping_per_domain_witness :
  (well_typed prod_props = true /\
   domains prod_props = Some [domain_one; domain_two] /\
   library_admits cdk_accepts [] "Api" prod_props = true /\
   (constructor cdk_accepts [] "Api" prod_props).1 = Normal tt /\
   maps_each_domain (constructor cdk_accepts [] "Api" prod_props).2
     [domain_one; domain_two]) /\
  (well_typed bare_props = true /\
   domains bare_props = Some [] /\
   mappings (constructor cdk_accepts [] "Api" bare_props).2 = []).
Proof.
  split.
  - do 3 (split; [reflexivity |]).
    exact (proj1 (proj2 (proj2 (one_mapping_per_domain cdk_accepts [] "Api"
                                  prod_props [domain_one; domain_two]
                                  eq_refl eq_refl))) eq_refl).
  - do 2 (split; [reflexivity |]).
    exact (proj1 (proj2 (proj2 (proj2 (one_mapping_per_domain cdk_accepts
                                         [] "Api" bare_props [] eq_refl
                                         eq_refl)))) eq_refl).
Defined.

(** C2, as stated, fails: with a domain listed twice the constructor throws
    at the second mapping and leaves one mapping for two domains. *)
Lemma repeated_domain_one_mapping :
  well_typed repeated_props = true /\
  domains repeated_props = Some [domain_one; domain_one] /\
  (constructor cdk_accepts [] "Api" repeated_props).1 =
    Throw (NameTaken "-Stack--DomainOne") /\
  length (mappings (constructor cdk_accepts [] "Api" repeated_props).2) = 1.
Proof. repeat split; reflexivity. Qed.

(** C5.  For every configuration all mappings share one base path: left
    unset it is the empty string for every mapping, set to [v1] it is [v1]
    for every mapping.  This holds of whatever mappings exist, and when the
    library admits every construct there is one per domain. *)
Theorem base_path_shared
    (accepts : apigateway.Resource -> bool) (scope : list string)
    (id : string) (props : InternalApiGatewayProps)
    (ds : list apigateway.IDomainName) :
  well_typed props = true ->
  domains props = Some ds ->
  ((exists path, carry_basePath (constructor accepts scope id props).2 path) /\
   (apiBasePathMappingPath props = None ->
    carry_basePath (constructor accepts scope id props).2 "") /\
   (apiBasePathMappingPath props = Some "v1" ->
    carry_basePath (constructor accepts scope id props).2 "v1")) /\
  (library_admits accepts scope id props = true ->
   (exists path,
      shared_basePath (constructor accepts scope id props).2
        (length ds) path) /\
   (apiBasePathMappingPath props = None ->
    shared_basePath (constructor accepts scope id props).2 (length ds) "") /\
   (apiBasePathMappingPath props = Some "v1" ->
    shared_basePath (constructor accepts scope id props).2 (length ds)
      "v1")).
Proof.
  intros Hwt Hd.
  destruct (well_typed_fields props Hwt) as (name & ds' & e & _ & _ & He).
  split.
  - split; [| split].
    + destruct (selectBasePath_string props) as [path Hp].
      exists path. exact (basePaths_carried accepts scope id props path Hp).
    + intros Hnone. apply basePaths_carried, selectBasePath_unset, Hnone.
    + intros Hv1. apply basePaths_carried.
      apply selectBasePath_nonempty; [exact Hv1 | discriminate].
  - intros Hadm. split; [| split].
    + destruct (selectBasePath_string props) as [path Hp]. exists path.
      exact (basePaths_run accepts scope id props e ds path Hadm He Hd Hp).
    + intros Hnone.
      apply (basePaths_run accepts scope id props e ds "" Hadm He Hd).
      apply selectBasePath_unset, Hnone.
    + intros Hv1.
      apply (basePaths_run accepts scope id props e ds "v1" Hadm He Hd).
      apply selectBasePath_nonempty; [exact Hv1 | discriminate].
Qed.

Lemma base_path_shared_witness :
  (well_typed prod_props = true /\
   domains prod_props = Some [domain_one; domain_two] /\
   library_admits cdk_accepts [] "Api" prod_props = true /\
   apiBasePathMappingPath prod_props = None /\
   shared_basePath (constructor cdk_accepts [] "Api" prod_props).2 2 "") /\
  (well_typed binary_props = true /\
   domains binary_props = Some [domain_one; domain_two] /\
   library_admits cdk_accepts [] "Api" binary_props = true /\
   apiBasePathMappingPath binary_props = Some "v1" /\
   shared_basePath (constructor cdk_accepts [] "Api" binary_props).2 2
     "v1").
Proof.
  split; do 4 (split; [reflexivity |]).
  - exact (proj1 (proj2 (proj2 (base_path_shared cdk_accepts [] "Api"
                                  prod_props [domain_one; domain_two]
                                  eq_refl eq_refl) eq_refl)) eq_refl).
  - exact (proj2 (proj2 (proj2 (base_path_shared cdk_accepts [] "Api"
                                  binary_props [domain_one; domain_two]
                                  eq_refl eq_refl) eq_refl)) eq_refl).
Defined.

(** C7, as amended.  A mapping is registered under a dash followed by the
    string conversion of its domain object, each slash rewritten to two
    dashes.  The names of the mappings that exist are pairwise different.
    Two entries of the list that get the same name - a repeated entry, or
    two domains whose conversions agree after the rewriting - collide: the
    constructor does not complete.  When the library admits every construct
    each domain of the list has its mapping under its name. *)
Theorem mapping_ids_from_string_conversion
    (accepts : apigateway.Resource -> bool) (scope : list string)
    (id : string) (props : InternalApiGatewayProps)
    (ds : list apigateway.IDomainName) :
  well_typed props = true ->
  domains props = Some ds ->
  (exists k,
     fst <$> mappings (constructor accepts scope id props).2 =
     (fun d => sanitizeId ("-" +:+ apigateway.toString d)) <$> take k ds) /\
  NoDup (fst <$> mappings (constructor accepts scope id props).2) /\
  (forall i j di dj,
     i <> j -> ds !! i = Some di -> ds !! j = Some dj ->
     sanitizeId ("-" +:+ apigateway.toString di) =
       sanitizeId ("-" +:+ apigateway.toString dj) ->
     (constructor accepts scope id props).1 <> Normal tt) /\
  (library_admits accepts scope id props = true ->
   fst <$> mappings (constructor accepts scope id props).2 =
   (fun d => sanitizeId ("-" +:+ apigateway.toString d)) <$> ds).
Proof.
  intros Hwt Hd.
  split; [| split; [apply mapping_ids_NoDup | split]].
  - destruct (mappings_shape accepts scope id props) as [k Hk].
    rewrite Hd in Hk. change (default [] (Some ds)) with ds in Hk.
    exists k. rewrite Hk, <- list_fmap_compose. reflexivity.
  - intros i j di dj Hij Hi Hj Hsame Hnormal.
    apply constructor_normal_iff in Hnormal.
    destruct (library_admits_fields accepts scope id props Hnormal)
      as (e & ds' & _ & Hd' & _ & _ & Hm).
    assert (ds' = ds) as -> by congruence.
    apply mappings_admitted_spec in Hm as [Hnd _].
    apply Hij.
    apply (proj1 (NoDup_alt (registeredId <$> ds)) Hnd i j (registeredId di)).
    + rewrite list_lookup_fmap, Hi. reflexivity.
    + rewrite list_lookup_fmap, Hj. cbn. f_equal. symmetry. exact Hsame.
  - intros Hadm.
    destruct (library_admits_fields accepts scope id props Hadm)
      as (e & ds' & He & Hd' & _).
    assert (ds' = ds) as -> by congruence.
    rewrite (mappings_run accepts scope id props e ds Hadm He Hd).
    rewrite <- list_fmap_compose. reflexivity.
Qed.

Lemma mapping_ids_from_string_conversion_witness :
  well_typed prod_props = true /\
  domains prod_props = Some [domain_one; domain_two] /\
  library_admits cdk_accepts [] "Api" prod_props = true /\
  fst <$> mappings (constructor cdk_accepts [] "Api" prod_props).2 =
    ["-Stack--DomainOne"; "-Stack--DomainTwo"].
Proof.
  do 3 (split; [reflexivity |]).
  exact (proj2 (proj2 (proj2 (mapping_ids_from_string_conversion cdk_accepts
                                [] "Api" prod_props [domain_one; domain_two]
                                eq_refl eq_refl))) eq_refl).
Defined.

(** C7, as stated, fails: two different domain objects with the same string
    conversion are given the same name, and the constructor throws on the
    second with one mapping registered. *)
Lemma distinct_domains_colliding_ids :
  plain_domain_a <> plain_domain_b /\
  well_typed plain_props = true /\
  domains plain_props = Some [plain_domain_a; plain_domain_b] /\
  registeredId plain_domain_a = "-[object Object]" /\
  registeredId plain_domain_b = "-[object Object]" /\
  (constructor cdk_accepts [] "Api" plain_props).1 =
    Throw (NameTaken "-[object Object]") /\
  (fun m => (m.1, apigateway.mappingDomainName m.2)) <$>
    mappings (constructor cdk_accepts [] "Api" plain_props).2 =
    [("-[object Object]", plain_domain_a)].
Proof.
  split; [discriminate |]. repeat split; reflexivity.
Qed.

Lemma selectBasePath_default (props : InternalApiGatewayProps) :
  selectBasePath props = Some (default "" (apiBasePathMappingPath props)).
Proof.
  destruct (apiBasePathMappingPath props) as [path|] eqn:E.
  - destruct (decide (path = "")) as [->|Hne].
    + apply selectBasePath_empty, E.
    + apply selectBasePath_nonempty; assumption.
  - apply selectBasePath_unset, E.
Qed.

(** What the constructor can throw: an error of the library, or a
    [TypeError] of its own statements, and that only when the endpoint or
    the domain list is missing. *)
Lemma constructor_throw_kinds (accepts : apigateway.Resource -> bool)
    (scope : list string) (id : string) (props : InternalApiGatewayProps)
    (e : Error) :
  (constructor accepts scope id props).1 = Throw e ->
  library_error e = true \/
  e = TypeError /\ (vpcEndpoint props = None \/ domains props = None).
Proof.
  destruct (scope_admits scope id) eqn:Hs.
  - destruct (vpcEndpoint props) as [endpoint|] eqn:He.
    + destruct (accepts (gatewayChild id props endpoint).2) eqn:Hacc.
      * rewrite (constructor_loop accepts scope id props endpoint Hs He
                   Hacc).
        destruct (domains props) as [ds|]; cbn [for_of].
        -- intros Hthrow. left.
           exact (for_each_throws_library accepts props ds
                    (with_gateway id props endpoint) 0 e eq_refl Hthrow).
        -- intros [= <-]. right. split; [reflexivity |].
           right. reflexivity.
      * rewrite (constructor_gateway_rejected accepts scope id props
                   endpoint Hs He Hacc).
        intros [= <-]. left. reflexivity.
    + rewrite (constructor_no_endpoint accepts scope id props Hs He).
      intros [= <-]. right. split; [reflexivity |].
      left. reflexivity.
  - destruct (constructor_super_throws accepts scope id props Hs)
      as (e' & -> & Hlib).
    intros [= <-]. left. exact Hlib.
Qed.

(** C8, as amended.  The statements of the constructor validate nothing:
    they throw only a [TypeError], and only when the endpoint or the domain
    list is absent; with the required fields present every throw is an
    error of the library.  When the library admits every construct the
    constructor completes with the gateway and one mapping per domain (an
    empty list included), and the optional fields are handed over as they
    are: binary media types and compression size to the gateway, the base
    path, or the empty string for a missing one, to every mapping. *)
Theorem constructor_validates_nothing
    (accepts : apigateway.Resource -> bool) (scope : list string)
    (id : string) (props : InternalApiGatewayProps) :
  (forall ds,
     library_admits accepts scope id props = true ->
     domains props = Some ds ->
     exists this gateway,
       constructor accepts scope id props = (Normal tt, this) /\
       length (children this) = S (length ds) /\
       sole_gateway this gateway /\
       apigateway.binaryMediaTypes gateway = binaryMediaTypes props /\
       apigateway.minimumCompressionSize gateway =
         minimumCompressionSize props /\
       length (mappings this) = length ds /\
       Forall (fun m => apigateway.basePath m.2 =
                          Some (default "" (apiBasePathMappingPath props)))
              (mappings this)) /\
  ((constructor accepts scope id props).1 = Throw TypeError ->
   vpcEndpoint props = None \/ domains props = None) /\
  (forall e,
     (constructor accepts scope id props).1 = Throw e ->
     well_typed props = true ->
     library_error e = true).
Proof.
  split; [| split].
  - intros ds Hadm Hd.
    destruct (library_admits_fields accepts scope id props Hadm)
      as (e & ds' & He & Hd' & Hs & _).
    assert (ds' = ds) as -> by congruence.
    pose proof (gateways_run accepts scope id props e Hs He) as Hg.
    pose proof (mappings_run accepts scope id props e ds Hadm He Hd) as Hm.
    rewrite (constructor_run accepts scope id props e ds Hadm He Hd)
      in Hg, Hm |- *.
    cbn [snd] in Hg, Hm. eexists _, _. split; [reflexivity |].
    split; [cbn; rewrite length_fmap; reflexivity |].
    split; [eexists; exact Hg |].
    split; [reflexivity |]. split; [reflexivity |].
    rewrite Hm. split; [apply length_fmap |].
    apply Forall_fmap, Forall_true. intros d. apply selectBasePath_default.
  - intros Hthrow.
    destruct (constructor_throw_kinds accepts scope id props _ Hthrow)
      as [Hlib | [_ Hmissing]]; [discriminate Hlib | exact Hmissing].
  - intros e Hthrow Hwt.
    destruct (constructor_throw_kinds accepts scope id props _ Hthrow)
      as [Hlib | [_ Hmissing]]; [exact Hlib |].
    destruct (well_typed_fields props Hwt) as (name & ds & ep & _ & Hd & He).
    destruct Hmissing; congruence.
Qed.

Lemma constructor_validates_nothing_witness :
  (library_admits cdk_accepts [] "Api" binary_props = true /\
   domains binary_props = Some [domain_one; domain_two] /\
   exists this gateway,
     constructor cdk_accepts [] "Api" binary_props = (Normal tt, this) /\
     length (children this) = 3 /\
     sole_gateway this gateway /\
     apigateway.binaryMediaTypes gateway =
       Some ["application/octet-stream"] /\
     apigateway.minimumCompressionSize gateway = Some 1024%Z /\
     length (mappings this) = 2 /\
     Forall (fun m => apigateway.basePath m.2 = Some "v1")
            (mappings this)) /\
  ((constructor cdk_accepts [] "Api" no_endpoint_props).1 =
     Throw TypeError /\
   (vpcEndpoint no_endpoint_props = None \/
    domains no_endpoint_props = None)) /\
  ((constructor cdk_accepts [] "Api" repeated_props).1 =
     Throw (NameTaken "-Stack--DomainOne") /\
   well_typed repeated_props = true /\
   library_error (NameTaken "-Stack--DomainOne") = true).
Proof.
  split; [| split].
  - do 2 (split; [reflexivity |]).
    exact (proj1 (constructor_validates_nothing cdk_accepts [] "Api"
                    binary_props) [domain_one; domain_two] eq_refl eq_refl).
  - split; [reflexivity |].
    exact (proj1 (proj2 (constructor_validates_nothing cdk_accepts [] "Api"
                           no_endpoint_props)) eq_refl).
  - do 2 (split; [reflexivity |]).
    exact (proj2 (proj2 (constructor_validates_nothing cdk_accepts [] "Api"
                           repeated_props)) _ eq_refl eq_refl).
Defined.

(** C8, as stated, fails: with every required field present the constructor
    still throws, on a domain listed twice, on an empty identifier and on
    a base path the library turns down. *)
Lemma required_fields_present_yet_throws :
  (well_typed repeated_props = true /\
   (constructor cdk_accepts [] "Api" repeated_props).1 =
     Throw (NameTaken "-Stack--DomainOne")) /\
  (well_typed prod_props = true /\
   (constructor cdk_accepts [] "" prod_props).1 = Throw EmptyId) /\
  (well_typed slash_props = true /\
   exists r,
     (constructor cdk_accepts [] "Api" slash_props).1 = Throw (Rejected r)).
Proof.
  repeat split; try reflexivity. eexists. reflexivity.
Qed.

(** C9.  The field [apiGateway] is written at most once, and every mapping
    the constructor creates takes its REST API from that handle and its
    stage from the deployment stage of the gateway it designates; once
    [super] has returned and the library has accepted the gateway the field
    is written exactly once, to the only gateway of the construct. *)
Theorem handle_assigned_once_and_shared
    (accepts : apigateway.Resource -> bool) (scope : list string)
    (id : string) (props : InternalApiGatewayProps) :
  well_typed props = true ->
  apiGateway_writes (constructor accepts scope id props).2 <= 1 /\
  mappings_on_handle (constructor accepts scope id props).2 /\
  (scope_admits scope id = true ->
   gateway_admitted accepts id props = true ->
   apiGateway_writes (constructor accepts scope id props).2 = 1 /\
   mappings_use_handle (constructor accepts scope id props).2).
Proof.
  intros Hwt.
  destruct (well_typed_fields props Hwt) as (name & ds & e & _ & Hd & He).
  assert (Hon : mappings_on_handle (constructor accepts scope id props).2).
  { unfold mappings_on_handle.
    destruct (constructor_state accepts scope id props)
      as [-> | [-> | [(e' & _ & ->) | (e' & k & _ & ->)]]];
      try (apply Forall_nil_2).
    rewrite mappings_with_gateway. apply Forall_fmap, Forall_true.
    intros d. exists 0. repeat split. }
  split; [| split; [exact Hon |]].
  - destruct (handle_state accepts scope id props)
      as [(_ & -> & _) | (_ & ->)]; lia.
  - intros Hs Hacc. unfold gateway_admitted in Hacc. rewrite He in Hacc.
    pose proof (gateways_run accepts scope id props e Hs He) as Hg.
    rewrite (constructor_loop accepts scope id props e Hs He Hacc), Hd
      in Hg, Hon |- *.
    cbn [for_of] in Hg, Hon |- *.
    destruct (for_each_shape accepts props ds (with_gateway id props e) 0
                eq_refl) as (k & Hstate & _).
    rewrite Hstate in Hg, Hon |- *.
    split; [reflexivity |].
    exists 0. eexists. split; [reflexivity |].
    split; [reflexivity |]. split; [eexists; exact Hg |].
    rewrite mappings_with_gateway. apply Forall_fmap, Forall_true.
    intros d. split; reflexivity.
Qed.

Lemma handle_assigned_once_and_shared_witness :
  well_typed prod_props = true /\
  scope_admits [] "Api" = true /\
  gateway_admitted cdk_accepts "Api" prod_props = true /\
  apiGateway_writes (constructor cdk_accepts [] "Api" prod_props).2 = 1 /\
  mappings_use_handle (constructor cdk_accepts [] "Api" prod_props).2.
Proof.
  do 3 (split; [reflexivity |]).
  exact (proj2 (proj2 (handle_assigned_once_and_shared cdk_accepts [] "Api"
                         prod_props eq_refl)) eq_refl eq_refl).
Defined.

(** C10.  Setting the base path to the empty string is the same as leaving
    it out: the constructor yields the same completion and the same object
    for both configurations, and every mapping's base path is the empty
    string in both. *)
Theorem empty_base_path_as_unset
    (accepts : apigateway.Resource -> bool) (scope : list string)
    (id : string) (props : InternalApiGatewayProps)
    (ds : list apigateway.IDomainName) :
  well_typed props = true ->
  domains props = Some ds ->
  constructor accepts scope id (with_basePath (Some "") props) =
    constructor accepts scope id (with_basePath None props) /\
  carry_basePath
    (constructor accepts scope id (with_basePath (Some "") props)).2 "" /\
  carry_basePath
    (constructor accepts scope id (with_basePath None props)).2 "" /\
  (library_admits accepts scope id (with_basePath None props) = true ->
   shared_basePath
     (constructor accepts scope id (with_basePath (Some "") props)).2
     (length ds) "" /\
   shared_basePath
     (constructor accepts scope id (with_basePath None props)).2
     (length ds) "").
Proof.
  intros Hwt Hd.
  destruct (well_typed_fields props Hwt) as (name & ds' & e & _ & _ & He).
  split; [reflexivity |].
  split; [apply basePaths_carried; reflexivity |].
  split; [apply basePaths_carried; reflexivity |].
  intros Hadm. split.
  - apply (basePaths_run accepts scope id (with_basePath (Some "") props)
             e ds ""); trivial.
  - apply (basePaths_run accepts scope id (with_basePath None props)
             e ds ""); trivial.
Qed.

Lemma empty_base_path_as_unset_witness :
  well_typed binary_props = true /\
  domains binary_props = Some [domain_one; domain_two] /\
  library_admits cdk_accepts [] "Api" (with_basePath None binary_props) =
    true /\
  constructor cdk_accepts [] "Api" (with_basePath (Some "") binary_props) =
    constructor cdk_accepts [] "Api" (with_basePath None binary_props) /\
  shared_basePath
    (constructor cdk_accepts [] "Api"
       (with_basePath (Some "") binary_props)).2 2 "" /\
  shared_basePath
    (constructor cdk_accepts [] "Api"
       (with_basePath None binary_props)).2 2 "".
Proof.
  do 3 (split; [reflexivity |]).
  destruct (empty_base_path_as_unset cdk_accepts [] "Api" binary_props
              [domain_one; domain_two] eq_refl eq_refl)
    as (Hsame & _ & _ & Hshared).
  split; [exact Hsame |]. exact (Hshared eq_refl).
Defined.

(** ** Further properties of the constructor *)

(** X1.  When the configuration has no endpoint the constructor throws
    before anything is created, at the first property read of the policy if
    not already in [super]: [this] has no child and the handle was never
    written. *)
Theorem missing_endpoint_creates_nothing
    (accepts : apigateway.Resource -> bool) (scope : list string)
    (id : string) (props : InternalApiGatewayProps) :
  vpcEndpoint props = None ->
  exists e,
    (constructor accepts scope id props).1 = Throw e /\
    children (constructor accepts scope id props).2 = [] /\
    apiGateway (constructor accepts scope id props).2 = None /\
    apiGateway_writes (constructor accepts scope id props).2 = 0.
Proof.
  intros He. destruct (scope_admits scope id) eqn:Hs.
  - rewrite (constructor_no_endpoint accepts scope id props Hs He).
    eexists. repeat split.
  - destruct (constructor_super_throws accepts scope id props Hs)
      as (e & -> & _).
    exists e. repeat split.
Qed.

Lemma missing_endpoint_creates_nothing_witness :
  vpcEndpoint no_endpoint_props = None /\
  exists e,
    (constructor cdk_accepts [] "Api" no_endpoint_props).1 = Throw e /\
    children (constructor cdk_accepts [] "Api" no_endpoint_props).2 = [] /\
    apiGateway (constructor cdk_accepts [] "Api" no_endpoint_props).2 =
      None /\
    apiGateway_writes (constructor cdk_accepts [] "Api" no_endpoint_props).2
      = 0.
Proof.
  split; [reflexivity |].
  exact (missing_endpoint_creates_nothing cdk_accepts [] "Api"
           no_endpoint_props eq_refl).
Defined.

(** X2.  When the configuration has an endpoint but no domain list, and
    [super] has returned and the library has accepted the gateway, the
    constructor throws at the loop: [this] is left with the gateway as its
    only child, the handle assigned once to it, and no mapping. *)
Theorem missing_domains_leaves_gateway_only
    (accepts : apigateway.Resource -> bool) (scope : list string)
    (id : string) (props : InternalApiGatewayProps)
    (endpoint : ec2.IInterfaceVpcEndpoint) :
  scope_admits scope id = true ->
  gateway_admitted accepts id props = true ->
  vpcEndpoint props = Some endpoint ->
  domains props = None ->
  exists e gateway,
    (constructor accepts scope id props).1 = Throw e /\
    children (constructor accepts scope id props).2 =
      [(sanitizeId ("Gateway-" +:+ id), apigateway.RestApi gateway)] /\
    handle (constructor accepts scope id props).2 = Some gateway /\
    apiGateway_writes (constructor accepts scope id props).2 = 1 /\
    mappings (constructor accepts scope id props).2 = [].
Proof.
  intros Hs Hacc He Hd. unfold gateway_admitted in Hacc. rewrite He in Hacc.
  rewrite (constructor_loop accepts scope id props endpoint Hs He Hacc), Hd.
  eexists _, _. repeat split.
Qed.

Lemma missing_domains_leaves_gateway_only_witness :
  scope_admits [] "Api" = true /\
  gateway_admitted cdk_accepts "Api" no_domains_props = true /\
  vpcEndpoint no_domains_props = Some endpoint_one /\
  domains no_domains_props = None /\
  exists e gateway,
    (constructor cdk_accepts [] "Api" no_domains_props).1 = Throw e /\
    children (constructor cdk_accepts [] "Api" no_domains_props).2 =
      [("Gateway-Api", apigateway.RestApi gateway)] /\
    handle (constructor cdk_accepts [] "Api" no_domains_props).2 =
      Some gateway /\
    apiGateway_writes (constructor cdk_accepts [] "Api" no_domains_props).2
      = 1 /\
    mappings (constructor cdk_accepts [] "Api" no_domains_props).2 = [].
Proof.
  do 4 (split; [reflexivity |]).
  exact (missing_domains_leaves_gateway_only cdk_accepts [] "Api"
           no_domains_props endpoint_one eq_refl eq_refl eq_refl eq_refl).
Defined.



(** X4.  Once [super] has returned, the stage name is handed to the gateway
    as it is read, also when the caller left it out: the deployment options
    then carry an undefined stage name. *)
Theorem stage_handed_over_as_read
    (accepts : apigateway.Resource -> bool) (scope : list string)
    (id : string) (props : InternalApiGatewayProps)
    (endpoint : ec2.IInterfaceVpcEndpoint) :
  scope_admits scope id = true ->
  vpcEndpoint props = Some endpoint ->
  exists gateway,
    sole_gateway (constructor accepts scope id props).2 gateway /\
    apigateway.deployOptions gateway =
      Some {| apigateway.stageName := stage props |}.
Proof.
  intros Hs He. eexists. split.
  - eexists. apply (gateways_run accepts scope id props endpoint Hs He).
  - reflexivity.
Qed.

Lemma stage_handed_over_as_read_witness :
  scope_admits [] "Api" = true /\
  vpcEndpoint no_stage_props = Some endpoint_one /\
  exists gateway,
    sole_gateway (constructor cdk_accepts [] "Api" no_stage_props).2
      gateway /\
    apigateway.deployOptions gateway =
      Some {| apigateway.stageName := None |}.
Proof.
  do 2 (split; [reflexivity |]).
  exact (stage_handed_over_as_read cdk_accepts [] "Api" no_stage_props
           endpoint_one eq_refl eq_refl).
Defined.

(** X5.  The base path of every mapping is the configured path when that is
    a non-empty string, and the empty string otherwise (left out, or set to
    the empty string); it is never undefined.  When the library admits
    every construct there is one such mapping per domain. *)
Theorem base_path_selection
    (accepts : apigateway.Resource -> bool) (scope : list string)
    (id : string) (props : InternalApiGatewayProps) :
  (forall path,
     apiBasePathMappingPath props = Some path -> path <> "" ->
     carry_basePath (constructor accepts scope id props).2 path) /\
  (apiBasePathMappingPath props = None \/
   apiBasePathMappingPath props = Some "" ->
   carry_basePath (constructor accepts scope id props).2 "") /\
  Forall (fun m => is_Some (apigateway.basePath m.2))
         (mappings (constructor accepts scope id props).2) /\
  (forall ds,
     library_admits accepts scope id props = true ->
     domains props = Some ds ->
     shared_basePath (constructor accepts scope id props).2 (length ds)
       (default "" (apiBasePathMappingPath props))).
Proof.
  split; [| split; [| split]].
  - intros path Hp Hne. apply basePaths_carried.
    apply selectBasePath_nonempty; assumption.
  - intros Hfalsy. apply basePaths_carried.
    destruct Hfalsy as [Hnone | Hempty];
      [apply selectBasePath_unset | apply selectBasePath_empty]; assumption.
  - destruct (mappings_shape accepts scope id props) as [k ->].
    apply Forall_fmap, Forall_true. intros d.
    exact (selectBasePath_string props).
  - intros ds Hadm Hd.
    destruct (library_admits_fields accepts scope id props Hadm)
      as (e & ds' & He & _).
    apply (basePaths_run accepts scope id props e ds _ Hadm He Hd).
    apply selectBasePath_default.
Qed.

Lemma base_path_selection_witness :
  apiBasePathMappingPath binary_props = Some "v1" /\
  library_admits cdk_accepts [] "Api" binary_props = true /\
  domains binary_props = Some [domain_one; domain_two] /\
  carry_basePath (constructor cdk_accepts [] "Api" binary_props).2 "v1" /\
  shared_basePath (constructor cdk_accepts [] "Api" binary_props).2 2 "v1".
Proof.
  do 3 (split; [reflexivity |]).
  destruct (base_path_selection cdk_accepts [] "Api" binary_props)
    as (Hset & _ & _ & Hcount).
  split.
  - apply (Hset "v1" eq_refl). discriminate.
  - exact (Hcount [domain_one; domain_two] eq_refl eq_refl).
Defined.

(** X6.  Configuring the base path the constructor would select anyway
    changes nothing: the constructor yields the same completion and the same
    object as for the original configuration. *)
Theorem selected_base_path_is_fixed
    (accepts : apigateway.Resource -> bool) (scope : list string)
    (id : string) (props : InternalApiGatewayProps) :
  constructor accepts scope id (with_basePath (selectBasePath props) props) =
  constructor accepts scope id props.
Proof.
  destruct props as [name ds endpoint path media size].
  exact (constructor_basePath_ext accepts scope id
           {| stage := name; domains := ds; vpcEndpoint := endpoint;
              apiBasePathMappingPath := path; binaryMediaTypes := media;
              minimumCompressionSize := size |}
           _ path (selectBasePath_idempotent _)).
Qed.

(** X8.  Every mapping among the children of the construct is the mapping
    of the domain at the preceding position of the list, registered under
    the name of that domain, and it refers to the first child, which is the
    gateway; when the library admits every construct the mapping of the
    i-th domain is child i+1. *)
Theorem mappings_refer_to_earlier_gateway
    (accepts : apigateway.Resource -> bool) (scope : list string)
    (id : string) (props : InternalApiGatewayProps)
    (ds : list apigateway.IDomainName) :
  domains props = Some ds ->
  (forall i name m,
     children (constructor accepts scope id props).2 !! i =
       Some (name, apigateway.BasePathMapping m) ->
     exists j d gname gateway,
       i = S j /\ ds !! j = Some d /\
       name = sanitizeId ("-" +:+ apigateway.toString d) /\
       apigateway.mappingDomainName m = d /\
       apigateway.restApi m = Some 0 /\
       children (constructor accepts scope id props).2 !! 0 =
         Some (gname, apigateway.RestApi gateway)) /\
  (library_admits accepts scope id props = true ->
   forall j d,
     ds !! j = Some d ->
     exists m,
       children (constructor accepts scope id props).2 !! S j =
         Some (sanitizeId ("-" +:+ apigateway.toString d),
               apigateway.BasePathMapping m) /\
       apigateway.mappingDomainName m = d).
Proof.
  intros Hd. split.
  - intros i name m.
    destruct (constructor_state accepts scope id props)
      as [-> | [-> | [(e & _ & ->) | (e & k & _ & ->)]]].
    + intros H. discriminate H.
    + intros H. discriminate H.
    + destruct i as [|[|i]]; intros H; discriminate H.
    + rewrite Hd. change (default [] (Some ds)) with ds.
      cbn [grow children with_gateway app].
      destruct i as [|j]; [intros H; discriminate H |].
      rewrite lookup_cons, list_lookup_fmap.
      destruct (take k ds !! j) as [d|] eqn:Hj; [| intros H; discriminate H].
      intros [= <- <-].
      exists j, d. eexists _, _. split; [reflexivity |].
      split; [| repeat split].
      apply lookup_take_Some in Hj. tauto.
  - intros Hadm j d Hj.
    destruct (library_admits_fields accepts scope id props Hadm)
      as (e & ds' & He & Hd' & _).
    assert (ds' = ds) as -> by congruence.
    rewrite (constructor_run accepts scope id props e ds Hadm He Hd).
    cbn [snd grow children with_gateway app].
    rewrite lookup_cons, list_lookup_fmap, Hj.
    eexists. split; reflexivity.
Qed.

Lemma mappings_refer_to_earlier_gateway_witness :
  domains prod_props = Some [domain_one; domain_two] /\
  library_admits cdk_accepts [] "Api" prod_props = true /\
  [domain_one; domain_two] !! 1 = Some domain_two /\
  exists m,
    children (constructor cdk_accepts [] "Api" prod_props).2 !! 2 =
      Some ("-Stack--DomainTwo", apigateway.BasePathMapping m) /\
    apigateway.mappingDomainName m = domain_two.
Proof.
  do 3 (split; [reflexivity |]).
  exact (proj2 (mappings_refer_to_earlier_gateway cdk_accepts [] "Api"
                  prod_props [domain_one; domain_two] eq_refl)
           eq_refl 1 domain_two eq_refl).
Defined.

(** X9.  Under the policy bound to the gateway, the condition of the allow
    statement is met exactly by the requests whose source endpoint is the
    configured one, and the condition of the deny statement exactly by all
    other requests, those without a source endpoint included. *)
Theorem policy_admits_only_the_endpoint
    (accepts : apigateway.Resource -> bool) (scope : list string)
    (id : string) (props : InternalApiGatewayProps)
    (endpoint : ec2.IInterfaceVpcEndpoint) :
  scope_admits scope id = true ->
  vpcEndpoint props = Some endpoint ->
  exists deny allow,
    gateway_policies (constructor accepts scope id props).2 =
      [Some {| iam.statements := [deny; allow] |}] /\
    iam.effect deny = iam.DENY /\ iam.effect allow = iam.ALLOW /\
    forall request : gmap string string,
      (iam.conditions_hold request (iam.conditions allow) = true <->
       request !! "aws:sourceVpce" = Some (ec2.vpcEndpointId endpoint)) /\
      (iam.conditions_hold request (iam.conditions deny) = true <->
       request !! "aws:sourceVpce" <> Some (ec2.vpcEndpointId endpoint)).
Proof.
  intros Hs He. eexists _, _. split.
  - apply (gateway_policies_run accepts scope id props endpoint Hs He).
  - split; [reflexivity |]. split; [reflexivity |].
    intros request. split;
      [apply allow_condition_iff | apply deny_condition_iff].
Qed.

Lemma policy_admits_only_the_endpoint_witness :
  scope_admits [] "Api" = true /\
  vpcEndpoint prod_props = Some endpoint_one /\
  exists deny allow,
    gateway_policies (constructor cdk_accepts [] "Api" prod_props).2 =
      [Some {| iam.statements := [deny; allow] |}] /\
    iam.conditions_hold request_via_one (iam.conditions allow) = true /\
    iam.conditions_hold request_via_two (iam.conditions deny) = true /\
    iam.conditions_hold ∅ (iam.conditions deny) = true.
Proof.
  do 2 (split; [reflexivity |]).
  destruct (policy_admits_only_the_endpoint cdk_accepts [] "Api" prod_props
              endpoint_one eq_refl eq_refl)
    as (deny & allow & Hdoc & _ & _ & Hreq).
  exists deny, allow. split; [exact Hdoc |].
  split; [| split].
  - apply (proj1 (Hreq request_via_one)). reflexivity.
  - apply (proj2 (Hreq request_via_two)). discriminate.
  - apply (proj2 (Hreq ∅)). discriminate.
Defined.

(** X10.  The policy depends on the configuration through the identifier of
    the endpoint only: two configurations, whatever their stage, domains and
    optional fields, get the same policy exactly when their endpoints have
    the same identifier. *)
Theorem policy_determined_by_endpoint_id
    (accepts accepts' : apigateway.Resource -> bool)
    (scope scope' : list string) (id id' : string)
    (props props' : InternalApiGatewayProps)
    (endpoint endpoint' : ec2.IInterfaceVpcEndpoint) :
  scope_admits scope id = true -> vpcEndpoint props = Some endpoint ->
  scope_admits scope' id' = true -> vpcEndpoint props' = Some endpoint' ->
  (gateway_policies (constructor accepts scope id props).2 =
     gateway_policies (constructor accepts' scope' id' props').2 <->
   ec2.vpcEndpointId endpoint = ec2.vpcEndpointId endpoint').
Proof.
  intros Hs He Hs' He'.
  rewrite (gateway_policies_run accepts scope id props endpoint Hs He).
  rewrite (gateway_policies_run accepts' scope' id' props' endpoint' Hs' He').
  split.
  - intros H. apply (f_equal head) in H. cbn [head] in H.
    apply (inj Some), (inj Some), policyDocument_inj in H. tauto.
  - intros ->. reflexivity.
Qed.

Lemma policy_determined_by_endpoint_id_witness :
  scope_admits [] "Api" = true /\
  vpcEndpoint prod_props = Some endpoint_one /\
  scope_admits ["Api"] "Other" = true /\
  vpcEndpoint bare_props = Some endpoint_one /\
  gateway_policies (constructor cdk_accepts [] "Api" prod_props).2 =
    gateway_policies (constructor cdk_accepts ["Api"] "Other" bare_props).2.
Proof.
  do 4 (split; [reflexivity |]).
  exact (proj2 (policy_determined_by_endpoint_id cdk_accepts cdk_accepts []
                  ["Api"] "Api" "Other" prod_props bare_props endpoint_one
                  endpoint_one eq_refl eq_refl eq_refl eq_refl) eq_refl).
Defined.

(** The run on a replaced domain list, once the gateway is accepted. *)
Lemma constructor_with_domains (accepts : apigateway.Resource -> bool)
    (scope : list string) (id : string) (props : InternalApiGatewayProps)
    endpoint (ds : list apigateway.IDomainName) :
  scope_admits scope id = true ->
  vpcEndpoint props = Some endpoint ->
  accepts (gatewayChild id props endpoint).2 = true ->
  constructor accepts scope id (with_domains (Some ds) props) =
    for_each ds (createMapping accepts props)
      (with_gateway id props endpoint).
Proof.
  intros Hs He Hacc.
  rewrite (constructor_loop accepts scope id (with_domains (Some ds) props)
             endpoint Hs He Hacc).
  reflexivity.
Qed.

(** X11.  Domains appended to the list only add children at the end: the
    children for the shorter list are an initial segment of the children
    for the longer one, the gateway is the same, and so are the mappings of
    the earlier domains. *)
Theorem appended_domains_extend_children
    (accepts : apigateway.Resource -> bool) (scope : list string)
    (id : string) (props : InternalApiGatewayProps)
    (ds1 ds2 : list apigateway.IDomainName) :
  children (constructor accepts scope id
              (with_domains (Some ds1) props)).2
    `prefix_of`
  children (constructor accepts scope id
              (with_domains (Some (ds1 ++ ds2)%list) props)).2 /\
  gateways (constructor accepts scope id
              (with_domains (Some (ds1 ++ ds2)%list) props)).2 =
  gateways (constructor accepts scope id
              (with_domains (Some ds1) props)).2.
Proof.
  destruct (scope_admits scope id) eqn:Hs.
  - destruct (vpcEndpoint props) as [endpoint|] eqn:He.
    + destruct (accepts (gatewayChild id props endpoint).2) eqn:Hacc.
      * rewrite !(constructor_with_domains accepts scope id props endpoint)
          by assumption.
        rewrite for_each_app.
        destruct (for_each_shape accepts props ds1
                    (with_gateway id props endpoint) 0 eq_refl)
          as (k & Hstate & _).
        destruct (for_each ds1 _ _) as [[[]|e] this'];
          [| split; reflexivity].
        cbn [snd] in Hstate. subst this'.
        destruct (for_each_shape accepts props ds2
                    (grow (with_gateway id props endpoint)
                       (mappingChild props 0 <$> take k ds1)) 0 eq_refl)
          as (k' & -> & _).
        split.
        -- eexists. reflexivity.
        -- rewrite gateways_grow. reflexivity.
      * rewrite !(constructor_gateway_rejected accepts scope id _ endpoint)
          by assumption.
        split; reflexivity.
    + rewrite !(constructor_no_endpoint accepts scope id) by assumption.
      split; reflexivity.
  - destruct (constructor_super_throws accepts scope id
                (with_domains (Some ds1) props) Hs) as (e & -> & _).
    destruct (constructor_super_throws accepts scope id
                (with_domains (Some (ds1 ++ ds2)%list) props) Hs)
      as (e' & -> & _).
    split; reflexivity.
Qed.

Lemma mappings_admitted_Permutation
    (accepts : apigateway.Resource -> bool)
    (props : InternalApiGatewayProps)
    (ds ds' : list apigateway.IDomainName) :
  ds ≡ₚ ds' ->
  mappings_admitted accepts props ds = true ->
  mappings_admitted accepts props ds' = true.
Proof.
  intros Hperm. rewrite !mappings_admitted_spec. intros [Hnd Hall].
  split; [rewrite <- Hperm; exact Hnd | rewrite <- Hperm; exact Hall].
Qed.

(** X12.  When the library admits every construct, the order of the domain
    list decides the order of the mappings and nothing else: the reordered
    list is admitted as well, and gives the same gateway and the same
    mappings, reordered. *)
Theorem reordered_domains_same_resources
    (accepts : apigateway.Resource -> bool) (scope : list string)
    (id : string) (props : InternalApiGatewayProps)
    (ds ds' : list apigateway.IDomainName) :
  library_admits accepts scope id (with_domains (Some ds) props) = true ->
  ds ≡ₚ ds' ->
  (constructor accepts scope id (with_domains (Some ds') props)).1 =
    Normal tt /\
  gateways (constructor accepts scope id (with_domains (Some ds) props)).2 =
    gateways (constructor accepts scope id
                (with_domains (Some ds') props)).2 /\
  mappings (constructor accepts scope id (with_domains (Some ds) props)).2
    ≡ₚ
  mappings (constructor accepts scope id (with_domains (Some ds') props)).2.
Proof.
  intros Hadm Hperm.
  destruct (library_admits_fields accepts scope id _ Hadm)
    as (e & ds0 & He & Hd & Hs & Hacc & Hm).
  injection Hd as <-.
  assert (Hadm' : library_admits accepts scope id
                    (with_domains (Some ds') props) = true).
  { unfold library_admits, gateway_admitted in Hadm |- *.
    cbn [with_domains vpcEndpoint domains] in Hadm |- *.
    apply andb_true_iff in Hadm as [Hpre _].
    apply andb_true_iff. split; [exact Hpre |].
    exact (mappings_admitted_Permutation accepts _ ds ds' Hperm Hm). }
  split; [apply constructor_normal_iff, Hadm' |].
  rewrite (constructor_run accepts scope id _ e ds Hadm He eq_refl).
  rewrite (constructor_run accepts scope id _ e ds' Hadm' He eq_refl).
  cbn [snd]. rewrite !gateways_grow, !mappings_with_gateway.
  split; [reflexivity |]. apply fmap_Permutation, Hperm.
Qed.

Lemma reordered_domains_same_resources_witness :
  library_admits cdk_accepts [] "Api"
    (with_domains (Some [domain_one; domain_two]) prod_props) = true /\
  [domain_one; domain_two] ≡ₚ [domain_two; domain_one] /\
  mappings
    (constructor cdk_accepts [] "Api"
       (with_domains (Some [domain_one; domain_two]) prod_props)).2 ≡ₚ
  mappings
    (constructor cdk_accepts [] "Api"
       (with_domains (Some [domain_two; domain_one]) prod_props)).2.
Proof.
  split; [reflexivity |]. split; [apply Permutation_swap |].
  exact (proj2 (proj2 (reordered_domains_same_resources cdk_accepts [] "Api"
                         prod_props [domain_one; domain_two]
                         [domain_two; domain_one] eq_refl
                         (Permutation_swap _ _ _)))).
Defined.


